(** * pdf_generator.py: the CSV-to-PDF batch converter

    A shallow embedding of [src/pdf_generator.py].  The script reads a CSV
    file with pandas, checks that the columns [Topic] and [Pages] exist and,
    for every row, draws [Pages] pages (at least one) on an FPDF document,
    which it finally writes to disk.

    A Python [str] is the Rocq string of its UTF-8 bytes.

    Layout of the development:
    - [Py]: the Python values and builtins the script applies to its data
      ([int], [str], [range]);
    - [Pandas]: data frames and the rows [iterrows] yields;
    - [FPDF]: the document, as the calls it has received;
    - [Run]: the effects of the script (standard output, the FPDF object,
      the disk, [sys.exit] and exceptions) as a state-and-outcome monad;
    - [PDFGenerator]: the class, method by method, and [main];
    - [Expected] and [Sample]: the vocabulary of the statements and some
      concrete runs;
    - lemmas on the builtins, the effects and the methods, and then the
      properties of the program. *)

From Stdlib Require Import ZArith List String Ascii Bool Lia DecimalString.
Import ListNotations.

Open Scope string_scope.
Open Scope Z_scope.

(* ================================================================= *)
(** ** Python values and builtins *)

Module Py.

(** The exceptions that can arise in the script.  The text of a
    [UnicodeEncodeError], which names the character and its position in
    the page, is not modelled. *)
Inductive exn : Type :=
| ValueError (msg : string)
| OverflowError (msg : string)
| KeyError (key : string)
| OSError (msg : string)
| UnicodeEncodeError.

(** A Python float: [FFinite m e] is the number [m * 2^e], which covers
    every finite double exactly; pandas stores a missing CSV field as NaN. *)
Inductive pyfloat : Type :=
| FFinite (m e : Z)
| FNaN
| FInf (negative : bool).

(** What a cell of a data frame read by [pandas.read_csv] can hold. *)
Inductive value : Type :=
| VInt (n : Z)
| VFloat (f : pyfloat)
| VStr (s : string)
| VBool (b : bool).

(** *** [int(x)] *)

(** [int(x)]: integers are kept, booleans are 0 and 1, floats are truncated
    towards zero; NaN and the infinities raise.  What [int] makes of text
    (which characters count as digits and blanks, how long a literal may
    be, the text of the error) is the interpreter's: it is passed in as
    [int_text]. *)
Definition int (int_text : string -> exn + Z) (x : value) : exn + Z :=
  match x with
  | VInt n => inr n
  | VBool b => inr (if b then 1 else 0)
  | VFloat (FFinite m e) =>
      inr (if 0 <=? e then m * 2 ^ e else Z.quot m (2 ^ (- e)))
  | VFloat FNaN => inl (ValueError "cannot convert float NaN to integer")
  | VFloat (FInf _) =>
      inl (OverflowError "cannot convert float infinity to integer")
  | VStr s => int_text s
  end.

(** The double nearest to an integer (ties to the even mantissa), as when
    an [int64] cell is stored in a [float64] array: exact up to 53 bits. *)
Definition float_of_int (n : Z) : pyfloat :=
  let a := Z.abs n in
  let k := Z.log2 a - 52 in
  if k <=? 0 then FFinite n 0
  else
    let q := Z.shiftr a k in
    let r := Z.land a (Z.ones k) in
    let half := Z.shiftl 1 (k - 1) in
    let up := (half <? r) || ((r =? half) && Z.odd q) in
    FFinite (Z.sgn n * (if up then q + 1 else q)) k.

(** *** [str(x)] *)

Definition str_of_Z (n : Z) : string := NilZero.string_of_int (Z.to_int n).

(** [str(x)].  The decimal form of a finite float (the shortest one that
    reads back as the same double) is computed by the interpreter; it is
    passed in as [float_repr]. *)
Definition str (float_repr : Z -> Z -> string) (x : value) : string :=
  match x with
  | VStr s => s
  | VInt n => str_of_Z n
  | VBool b => if b then "True" else "False"
  | VFloat (FFinite m e) => float_repr m e
  | VFloat FNaN => "nan"
  | VFloat (FInf negative) => if negative then "-inf" else "inf"
  end.

(** *** [range] *)

(** The values [y, y + step, ...] below [stop], for a positive step; [fuel]
    bounds the number of iterations. *)
Fixpoint range_up (fuel : nat) (y stop step : Z) : list Z :=
  match fuel with
  | O => []
  | S fuel' =>
      if y <? stop then y :: range_up fuel' (y + step) stop step else []
  end.

(** The values [y, y + step, ...] above [stop], for a negative step. *)
Fixpoint range_down (fuel : nat) (y stop step : Z) : list Z :=
  match fuel with
  | O => []
  | S fuel' =>
      if stop <? y then y :: range_down fuel' (y + step) stop step else []
  end.

(** [range(start, stop, step)]: a zero step raises [ValueError].  The
    distance between [start] and [stop] is enough fuel, since every
    iteration moves by at least one. *)
Definition range3 (start stop step : Z) : exn + list Z :=
  if step =? 0 then inl (ValueError "range() arg 3 must not be zero")
  else if 0 <? step
       then inr (range_up (Z.to_nat (stop - start)) start stop step)
       else inr (range_down (Z.to_nat (start - stop)) start stop step).

(** [range(n)] is [range(0, n, 1)]: empty when [n <= 0]. *)
Definition range1 (n : Z) : list Z :=
  range_up (Z.to_nat n) 0 n 1.

End Py.

(* ================================================================= *)
(** ** Data frames *)

Module Pandas.

(** A data frame: the column labels and, per CSV record, one cell per
    column, in file order.  In a frame [read_csv] builds, the cells of a
    column are all integers ([int64]), all floats ([float64], NaN for a
    missing field), all booleans, or text with NaN for the missing fields
    ([object]). *)
Record DataFrame : Type := {
  columns : list string;
  rows : list (list Py.value)
}.

(** A row as [iterrows] yields it: the cells labelled by their columns. *)
Definition Series : Type := list (string * Py.value).

Definition is_number (v : Py.value) : bool :=
  match v with Py.VInt _ | Py.VFloat _ => true | _ => false end.

Definition is_float (v : Py.value) : bool :=
  match v with Py.VFloat _ => true | _ => false end.

(** The rows of a frame are cut from one array of a common type.  When all
    cells are numbers and some are floats that type is [float64], and the
    integers become floats; integers alone stay integers, and with any
    text or boolean beside other types the cells are kept as they are. *)
Definition upcasts (df : DataFrame) : bool :=
  forallb (forallb is_number) (rows df) && existsb (existsb is_float) (rows df).

Definition upcast (v : Py.value) : Py.value :=
  match v with
  | Py.VInt n => Py.VFloat (Py.float_of_int n)
  | _ => v
  end.

Definition values (df : DataFrame) : list (list Py.value) :=
  if upcasts df then map (map upcast) (rows df) else rows df.

Definition iterrows (df : DataFrame) : list Series :=
  map (combine (columns df)) (values df).

Fixpoint lookup (row : Series) (key : string) : option Py.value :=
  match row with
  | [] => None
  | (k, v) :: row' => if String.eqb k key then Some v else lookup row' key
  end.

(** [row[key]] *)
Definition getitem (row : Series) (key : string) : Py.exn + Py.value :=
  match lookup row key with
  | Some v => inr v
  | None => inl (Py.KeyError key)
  end.

(** [row.get(key, default)]: the default is used only when the row has no
    such label. *)
Definition get (row : Series) (key : string) (default : Py.value) : Py.value :=
  match lookup row key with
  | Some v => v
  | None => default
  end.

(** [required.issubset(cols)] *)
Definition issubset (required cols : list string) : bool :=
  forallb (fun c => existsb (String.eqb c) cols) required.

End Pandas.

(* ================================================================= *)
(** ** The FPDF document *)

Module FPDF.

(** The script only ever calls drawing methods on its FPDF object and never
    reads anything back, so the object is the sequence of method calls it
    has received. *)
Inductive op : Type :=
| SetAutoPageBreak (auto : bool) (margin : Z)
| AddPage
| SetFont (family style : string) (size : Z)
| SetTextColor (r g b : Z)
| Cell (w h : Z) (txt align : string) (ln : Z)
| Line (x1 y1 x2 y2 : Z)
| Ln (h : Z).

Definition is_add_page (o : op) : bool :=
  match o with AddPage => true | _ => false end.

Definition is_line (o : op) : bool :=
  match o with Line _ _ _ _ => true | _ => false end.

Definition page_count (doc : list op) : nat :=
  List.length (filter is_add_page doc).

Definition line_count (doc : list op) : nat :=
  List.length (filter is_line doc).

(** The vertical offsets of the rule lines, in drawing order. *)
Fixpoint line_offsets (doc : list op) : list Z :=
  match doc with
  | [] => []
  | Line _ y _ _ :: doc' => y :: line_offsets doc'
  | _ :: doc' => line_offsets doc'
  end.

(** [split doc] cuts the calls at every [AddPage]: the calls made before
    the first page, and then the calls of each page. *)
Fixpoint split (doc : list op) : list op * list (list op) :=
  match doc with
  | [] => ([], [])
  | AddPage :: doc' => let (cur, ps) := split doc' in ([], cur :: ps)
  | o :: doc' => let (cur, ps) := split doc' in (o :: cur, ps)
  end.

Definition pages (doc : list op) : list (list op) := snd (split doc).

(** The texts written on a page, in order. *)
Fixpoint texts (page : list op) : list string :=
  match page with
  | [] => []
  | Cell _ _ txt _ _ :: page' => txt :: texts page'
  | _ :: page' => texts page'
  end.

(** What [output] does to the document before it writes it: a document
    without a page gets a blank one. *)
Definition close (doc : list op) : list op :=
  if (page_count doc =? 0)%nat then (doc ++ [AddPage])%list else doc.

(** The pages are written in latin-1: a text can be encoded when all its
    characters are below U+0100, that is, when none of its UTF-8 bytes is
    C4 or more. *)
Definition latin1 (s : string) : bool :=
  forallb (fun c => (nat_of_ascii c <? 196)%nat) (list_ascii_of_string s).

Definition encodable (doc : list op) : bool := forallb latin1 (texts doc).

(** The header is the first text of a page, the footer its last. *)
Definition header (page : list op) : option string := hd_error (texts page).

End FPDF.

(* ================================================================= *)
(** ** Effects *)

Module Run.

(** How a computation ends: normally, by [sys.exit(status)], or with an
    exception that nothing caught. *)
Inductive outcome (A : Type) : Type :=
| Ok (a : A)
| Exit (status : Z)
| Raise (e : Py.exn).
Arguments Ok {A} a.
Arguments Exit {A} status.
Arguments Raise {A} e.

(** What the script acts on: the lines printed, the FPDF object, the paths
    [output] was called with, and the files written (newest first). *)
Record world : Type := {
  stdout : list string;
  pdf : list FPDF.op;
  output_calls : list string;
  disk : list (string * list FPDF.op)
}.

(** What the script finds around it: the file system, what pandas makes of
    a file (a data frame, or the text of the exception it raised), what
    the interpreter makes of a text given to [int], what it prints for a
    float and for the set of required columns (the order of a set's
    elements depends on the hash seed), and whether a path can be opened
    for writing ([None]) or with which message opening it fails. *)
Record host : Type := {
  isfile : string -> bool;
  read_csv : string -> string + Pandas.DataFrame;
  int_text : string -> Py.exn + Z;
  float_repr : Z -> Z -> string;
  required_columns_repr : string;
  open_error : string -> option string
}.

Definition M (A : Type) : Type := world -> outcome A * world.

Definition ret {A} (a : A) : M A := fun w => (Ok a, w).

Definition bind {A B} (m : M A) (k : A -> M B) : M B :=
  fun w =>
    match m w with
    | (Ok a, w') => k a w'
    | (Exit c, w') => (Exit c, w')
    | (Raise e, w') => (Raise e, w')
    end.

Definition raise {A} (e : Py.exn) : M A := fun w => (Raise e, w).

Definition sys_exit {A} (status : Z) : M A := fun w => (Exit status, w).

Definition lift {A} (r : Py.exn + A) : M A :=
  match r with
  | inr a => ret a
  | inl e => raise e
  end.

(** The two ways the script changes the world besides writing the file:
    it prints a line, and it sends calls to [self.pdf]. *)
Definition say (s : string) (w : world) : world :=
  {| stdout := (stdout w ++ [s])%list; pdf := pdf w;
     output_calls := output_calls w; disk := disk w |}.

Definition draw (ops : list FPDF.op) (w : world) : world :=
  {| stdout := stdout w; pdf := (pdf w ++ ops)%list;
     output_calls := output_calls w; disk := disk w |}.

Definition print (s : string) : M unit := fun w => (Ok tt, say s w).

(** A call of a drawing method on [self.pdf]. *)
Definition call (o : FPDF.op) : M unit := fun w => (Ok tt, draw [o] w).

(** [self.pdf = FPDF(...)]: a new, empty document. *)
Definition new_pdf : M unit :=
  fun w => (Ok tt, {| stdout := stdout w; pdf := [];
                      output_calls := output_calls w; disk := disk w |}).

(** [self.pdf.output(path)] first closes the document, then encodes its
    pages, then opens the file and writes.  It raises [UnicodeEncodeError]
    when a text of the document is not latin-1, and [OSError] when the
    file cannot be opened; in both cases nothing is written. *)
Definition output_error (h : host) (path : string) (doc : list FPDF.op)
  : option Py.exn :=
  if FPDF.encodable doc then option_map Py.OSError (open_error h path)
  else Some Py.UnicodeEncodeError.

(** The call is noted and the document closed. *)
Definition attempt (path : string) (w : world) : world :=
  {| stdout := stdout w; pdf := FPDF.close (pdf w);
     output_calls := (output_calls w ++ [path])%list; disk := disk w |}.

(** The document is written to [path], replacing what was there. *)
Definition store (path : string) (w : world) : world :=
  {| stdout := stdout w; pdf := pdf w;
     output_calls := output_calls w; disk := (path, pdf w) :: disk w |}.

Definition output (h : host) (path : string) : M unit :=
  fun w =>
    let w1 := attempt path w in
    match output_error h path (pdf w1) with
    | None => (Ok tt, store path w1)
    | Some e => (Raise e, w1)
    end.

(** [draws P m]: whatever the world, [m] ends the same way and its only
    effect is to send the same calls, all satisfying [P], to the document. *)
Definition draws {A} (P : FPDF.op -> Prop) (m : M A) : Prop :=
  exists o ops, Forall P ops /\ forall w, m w = (o, draw ops w).

(** A [for] loop: the body runs for each element in turn; an exit or an
    exception in the body ends the loop. *)
Fixpoint for_each {A} (l : list A) (body : A -> M unit) : M unit :=
  match l with
  | [] => ret tt
  | x :: l' => bind (body x) (fun _ => for_each l' body)
  end.

End Run.

Declare Scope run_scope.
Delimit Scope run_scope with run.
Notation "x <- m ;; k" := (Run.bind m (fun x => k))
  (at level 100, m at next level, right associativity) : run_scope.
Notation "m ;; k" := (Run.bind m (fun _ => k))
  (at level 100, right associativity) : run_scope.

(* ================================================================= *)
(** ** The class [PDFGenerator] and [main] *)

Module PDFGenerator.
Import Run.
Open Scope run_scope.

(** The attributes of a generator; [self.pdf] is the [pdf] of the world. *)
Record t : Type := {
  csv_path : string;
  output_path : string;
  line_spacing : Z;
  font_size : Z
}.

(** [__init__] *)
Definition init (csv output : string) (spacing fontsize : Z) : M t :=
  new_pdf ;;
  call (FPDF.SetAutoPageBreak false 0) ;;
  ret {| csv_path := csv; output_path := output;
         line_spacing := spacing; font_size := fontsize |}.

(** [add_page]: a page with header, horizontal lines and footer. *)
Definition add_page (self : t) (topic : string) : M unit :=
  call FPDF.AddPage ;;
  (* Header *)
  call (FPDF.SetFont "Arial" "B" (font_size self)) ;;
  call (FPDF.SetTextColor 100 100 100) ;;
  call (FPDF.Cell 0 12 topic "L" 1) ;;
  (* Horizontal lines *)
  ys <- lift (Py.range3 20 298 (line_spacing self)) ;;
  for_each ys (fun y => call (FPDF.Line 10 y 200 y)) ;;
  (* Footer *)
  call (FPDF.Ln 265) ;;
  call (FPDF.SetFont "Arial" "I" 8) ;;
  call (FPDF.SetTextColor 180 180 180) ;;
  call (FPDF.Cell 0 10 topic "R" 0).

Definition required_columns : list string := ["Topic"; "Pages"].

(** The body of the loop over the rows in [generate]. *)
Definition generate_row (self : t) (h : host) (row : Pandas.Series) : M unit :=
  cell <- lift (Pandas.getitem row "Topic") ;;
  let topic := Py.str (float_repr h) cell in
  pages <- lift (Py.int (int_text h) (Pandas.get row "Pages" (Py.VInt 1))) ;;
  add_page self topic ;;  (* First page *)
  for_each (Py.range1 (pages - 1)) (fun _ => add_page self topic).

(** [generate]: reads the CSV and generates the PDF. *)
Definition generate (self : t) (h : host) : M unit :=
  if negb (isfile h (csv_path self)) then
    print ("Error: CSV file not found: " ++ csv_path self) ;;
    sys_exit 1
  else
    match read_csv h (csv_path self) with
    | inl e =>
        print ("Error reading CSV: " ++ e) ;;
        sys_exit 1
    | inr df =>
        if negb (Pandas.issubset required_columns (Pandas.columns df)) then
          print ("Error: CSV must contain columns: " ++ required_columns_repr h) ;;
          sys_exit 1
        else
          for_each (Pandas.iterrows df) (generate_row self h) ;;
          output h (output_path self) ;;
          print ("PDF generated successfully: " ++ output_path self)
    end.

(** The command line after [argparse]: [--csv] is required, the others
    have defaults. *)
Record cli : Type := {
  opt_csv : string;
  opt_output : option string;
  opt_lines : option Z;
  opt_fontsize : option Z
}.

Definition or_default {A} (o : option A) (d : A) : A :=
  match o with Some a => a | None => d end.

(** [main]: builds the generator from the arguments and runs it; there is
    no [try] around it. *)
Definition main (args : cli) (h : host) : M unit :=
  generator <- init (opt_csv args)
                    (or_default (opt_output args) "output.pdf")
                    (or_default (opt_lines args) 10)
                    (or_default (opt_fontsize args) 24) ;;
  generate generator h.

End PDFGenerator.

(* ================================================================= *)
(** ** What a run is expected to draw *)

Module Expected.
Import PDFGenerator.

(** The vertical offsets [add_page] draws rule lines at. *)
Definition rule_offsets (spacing : Z) : list Z :=
  match Py.range3 20 298 spacing with
  | inr ys => ys
  | inl _ => []
  end.

(** The calls [add_page] makes after [pdf.add_page()], when the range of
    rule lines does not raise. *)
Definition page_body (self : t) (topic : string) : list FPDF.op :=
  ([FPDF.SetFont "Arial" "B" (font_size self);
    FPDF.SetTextColor 100 100 100;
    FPDF.Cell 0 12 topic "L" 1]
   ++ map (fun y => FPDF.Line 10 y 200 y) (rule_offsets (line_spacing self))
   ++ [FPDF.Ln 265;
       FPDF.SetFont "Arial" "I" 8;
       FPDF.SetTextColor 180 180 180;
       FPDF.Cell 0 10 topic "R" 0])%list.

Definition page_calls (self : t) (topic : string) : list FPDF.op :=
  FPDF.AddPage :: page_body self topic.

(** A row is read as the pair of its [Topic] cell and its integer [Pages]. *)
Definition reads (row : Pandas.Series) (tp : Py.value * Z) : Prop :=
  Pandas.getitem row "Topic" = inr (fst tp) /\
  Pandas.get row "Pages" (Py.VInt 1) = Py.VInt (snd tp).

(** The header text of each page, row after row: the topic of a row,
    [max(Pages, 1)] times. *)
Definition page_topics (h : Run.host) (tps : list (Py.value * Z)) : list string :=
  flat_map (fun tp => repeat (Py.str (Run.float_repr h) (fst tp))
                             (Z.to_nat (Z.max (snd tp) 1))) tps.

(** The sum over the rows of [max(Pages, 1)]. *)
Definition total_pages (tps : list (Py.value * Z)) : Z :=
  fold_right (fun tp acc => Z.max (snd tp) 1 + acc) 0 tps.


(** The generator [main] builds from the command line, and the world it
    runs in: the document is new and has received the one call [__init__]
    makes on it. *)
Definition configured (args : cli) : t :=
  {| csv_path := opt_csv args;
     output_path := or_default (opt_output args) "output.pdf";
     line_spacing := or_default (opt_lines args) 10;
     font_size := or_default (opt_fontsize args) 24 |}.

Definition fresh (w : Run.world) : Run.world :=
  {| Run.stdout := Run.stdout w;
     Run.pdf := [FPDF.SetAutoPageBreak false 0];
     Run.output_calls := Run.output_calls w;
     Run.disk := Run.disk w |}.

(** A row the loop body accepts: it has a [Topic] cell, and [int] turns
    what [row.get("Pages", 1)] returns into the integer [snd tp]. *)
Definition converts (h : Run.host) (row : Pandas.Series) (tp : Py.value * Z)
  : Prop :=
  Pandas.getitem row "Topic" = inr (fst tp) /\
  Py.int (Run.int_text h) (Pandas.get row "Pages" (Py.VInt 1)) = inr (snd tp).

(** The input passes the checks of [generate]: the file is found, parses
    as [df] and has both columns. *)
Definition loaded (self : t) (h : Run.host) (df : Pandas.DataFrame) : Prop :=
  Run.isfile h (csv_path self) = true /\
  Run.read_csv h (csv_path self) = inr df /\
  In "Topic" (Pandas.columns df) /\ In "Pages" (Pandas.columns df).

(** The calls [add_page] makes up to the header, before it builds the range
    of the rule lines. *)
Definition header_calls (self : t) (topic : string) : list FPDF.op :=
  [FPDF.AddPage;
   FPDF.SetFont "Arial" "B" (font_size self);
   FPDF.SetTextColor 100 100 100;
   FPDF.Cell 0 12 topic "L" 1].

(** Where a rule line may lie: from 10 to 200 across, level, at an offset
    from 20 up to but not including 298, a whole number of steps below 20. *)
Definition in_rule_region (spacing : Z) (o : FPDF.op) : Prop :=
  match o with
  | FPDF.Line x1 y1 x2 y2 =>
      x1 = 10 /\ x2 = 200 /\ y2 = y1 /\ 20 <= y1 < 298 /\
      exists k, 0 <= k /\ y1 = 20 + k * spacing
  | _ => True
  end.

(** Every record has one cell per column, as in any frame pandas builds. *)
Definition well_formed (df : Pandas.DataFrame) : Prop :=
  Forall (fun r => List.length r = List.length (Pandas.columns df))
         (Pandas.rows df).

(** [ceil(a / b)] for a positive [b]. *)
Definition ceil_div (a b : Z) : Z := (a + b - 1) / b.

End Expected.

(* ================================================================= *)
(** ** Sample runs *)

Module Sample.
Import Py Pandas Run PDFGenerator.

Definition empty_world : world :=
  {| stdout := []; pdf := []; output_calls := []; disk := [] |}.

(** A host on which [topics.csv] exists and reads as [df]; [writable] tells
    whether files can be opened for writing.  No float is printed in the
    samples, and the only text they hold under [Pages] is [two], which
    [int] rejects with the message given here. *)
Definition host_with (df : DataFrame) (writable : bool) : host :=
  {| isfile := fun p => String.eqb p "topics.csv";
     read_csv := fun _ => inr df;
     int_text := fun s =>
       inl (ValueError ("invalid literal for int() with base 10: '"
                        ++ s ++ "'"));
     float_repr := fun _ _ => "";
     required_columns_repr := "{'Topic', 'Pages'}";
     open_error := fun p =>
       if writable then None
       else Some ("[Errno 13] Permission denied: '" ++ p ++ "'") |}.

Definition generator (csv : string) (spacing : Z) : t :=
  {| csv_path := csv; output_path := "out.pdf";
     line_spacing := spacing; font_size := 24 |}.

(** [--csv topics.csv --output out.pdf], and [--lines] when given. *)
Definition command (lines : option Z) : cli :=
  {| opt_csv := "topics.csv"; opt_output := Some "out.pdf";
     opt_lines := lines; opt_fontsize := None |}.

Definition frame (records : list (list value)) : DataFrame :=
  {| columns := ["Topic"; "Pages"]; rows := records |}.

Definition math_history : DataFrame :=
  frame [[VStr "Math"; VInt 2]; [VStr "History"; VInt 1]].

(** [Topic,Pages / Math,2 / History,] : the empty field makes the column a
    float column, with NaN for the missing value. *)
Definition missing_pages : DataFrame :=
  frame [[VStr "Math"; VFloat (FFinite 2 0)]; [VStr "History"; VFloat FNaN]].

(** [Topic,Pages / Math,two] : a column of text. *)
Definition textual_pages : DataFrame :=
  frame [[VStr "Math"; VStr "two"]].

(** [Topic,Pages / Math,2.5 / History,3 / ,1] : [Pages] is a float column
    and the missing topic is NaN in a column of text. *)
Definition fractional_pages : DataFrame :=
  frame [[VStr "Math"; VFloat (FFinite 5 (-1))];
         [VStr "History"; VFloat (FFinite 3 0)];
         [VFloat FNaN; VFloat (FFinite 1 0)]].

(** [Topic,Pages / Tokyo,1] with the topic written in kanji (U+6771
    U+4EAC, in UTF-8 the bytes E6 9D B1 E4 BA AC): not latin-1. *)
Definition tokyo : string :=
  String (ascii_of_nat 230) (String (ascii_of_nat 157) (String (ascii_of_nat 177)
  (String (ascii_of_nat 228) (String (ascii_of_nat 186) (String (ascii_of_nat 172)
  EmptyString))))).

Definition kanji_topic : DataFrame := frame [[VStr tokyo; VInt 1]].

(** [Topic,Pages,Weight / 7,2,1.5] : numbers only, one column of floats. *)
Definition weighted : DataFrame :=
  {| columns := ["Topic"; "Pages"; "Weight"];
     rows := [[VInt 7; VInt 2; VFloat (FFinite 3 (-1))]] |}.

Definition no_pages_column : DataFrame :=
  {| columns := ["Topic"; "Count"]; rows := [[VStr "Math"; VInt 2]] |}.

End Sample.

(* ================================================================= *)
(** ** Builtins: sanity checks and [range] *)

Example int_float :
  forall f, Py.int f (Py.VFloat (Py.FFinite (-5) (-1))) = inr (-2).
Proof. reflexivity. Qed.

Example float_of_int_small : Py.float_of_int 7 = Py.FFinite 7 0.
Proof. reflexivity. Qed.

Example float_of_int_tie :
  Py.float_of_int (2^53 + 1) = Py.FFinite (2^52) 1 /\
  Py.float_of_int (2^53 + 3) = Py.FFinite (2^52 + 2) 1.
Proof. split; reflexivity. Qed.

Example latin1_accent :
  FPDF.latin1 (String (ascii_of_nat 195) (String (ascii_of_nat 169) "")) = true.
Proof. reflexivity. Qed.

Example latin1_kanji : FPDF.latin1 Sample.tokyo = false.
Proof. reflexivity. Qed.

Example str_int : Py.str (fun _ _ => "") (Py.VInt (-42)) = "-42".
Proof. reflexivity. Qed.

Example range3_50 : Py.range3 20 298 50 = inr [20; 70; 120; 170; 220; 270].
Proof. reflexivity. Qed.

Example range3_neg : Py.range3 20 298 (-5) = inr [].
Proof. reflexivity. Qed.

Example range1_neg : Py.range1 (-1) = [].
Proof. reflexivity. Qed.

Section RangeFacts.

Variables (stop step : Z).
Hypothesis step_pos : 0 < step.

Lemma ceil_div_step (d : Z) :
  0 < d -> Expected.ceil_div d step = Expected.ceil_div (d - step) step + 1.
Proof.
  intros _. unfold Expected.ceil_div.
  replace (d + step - 1) with ((d - step + step - 1) + 1 * step) by ring.
  rewrite Z.div_add by lia. reflexivity.
Qed.

Lemma ceil_div_nonpos (d : Z) : d <= 0 -> Expected.ceil_div d step <= 0.
Proof.
  intros Hd. unfold Expected.ceil_div.
  assert ((d + step - 1) / step < 1); [|lia].
  apply Z.div_lt_upper_bound; lia.
Qed.

Lemma ceil_div_nonneg (d : Z) : - step < d -> 0 <= Expected.ceil_div d step.
Proof.
  intros Hd. unfold Expected.ceil_div.
  apply Z.div_pos; lia.
Qed.

(** With enough fuel, [range_up] is the arithmetic progression from [y] in
    steps of [step], of length [ceil((stop - y) / step)]. *)
Lemma range_up_progression (fuel : nat) :
  forall y, (Z.to_nat (stop - y) <= fuel)%nat ->
  Py.range_up fuel y stop step =
  map (fun i => y + Z.of_nat i * step)
      (seq 0 (Z.to_nat (Expected.ceil_div (stop - y) step))).
Proof.
  induction fuel as [|fuel IH]; intros y Hfuel; simpl.
  - pose proof (ceil_div_nonpos (stop - y)) as Hc.
    replace (Z.to_nat (Expected.ceil_div (stop - y) step)) with O by lia.
    reflexivity.
  - destruct (Z.ltb_spec y stop) as [Hlt|Hge].
    + rewrite (ceil_div_step (stop - y)) by lia.
      pose proof (ceil_div_nonneg (stop - y - step)) as Hp.
      rewrite Z2Nat.inj_add by lia.
      rewrite Nat.add_comm. simpl.
      rewrite <- seq_shift, map_map, IH by lia.
      f_equal; [lia|].
      replace (stop - (y + step)) with (stop - y - step) by ring.
      apply map_ext; intros i. lia.
    + pose proof (ceil_div_nonpos (stop - y)) as Hc.
      replace (Z.to_nat (Expected.ceil_div (stop - y) step)) with O by lia.
      reflexivity.
Qed.

End RangeFacts.

Lemma range1_length (n : Z) : List.length (Py.range1 n) = Z.to_nat n.
Proof.
  unfold Py.range1. rewrite range_up_progression by lia.
  rewrite length_map, length_seq. unfold Expected.ceil_div.
  replace (n - 0 + 1 - 1) with n by ring. rewrite Z.div_1_r. reflexivity.
Qed.

(* ================================================================= *)
(** ** Effects: drawing on the document *)

Section RunFacts.
Import Run.

Lemma draw_nil (w : world) : draw [] w = w.
Proof. destruct w; unfold draw; simpl. now rewrite app_nil_r. Qed.

Lemma draw_draw (a b : list FPDF.op) (w : world) :
  draw b (draw a w) = draw (a ++ b) w.
Proof. unfold draw; simpl. now rewrite app_assoc. Qed.

Lemma for_each_calls (f : Z -> FPDF.op) (ys : list Z) :
  forall w, for_each ys (fun y => call (f y)) w = (Ok tt, draw (map f ys) w).
Proof.
  induction ys as [|y ys IH]; intros w; simpl.
  - unfold ret. now rewrite draw_nil.
  - unfold bind, call at 1. rewrite IH, draw_draw. reflexivity.
Qed.

Variable P : FPDF.op -> Prop.

Lemma draws_ret {A} (a : A) : draws P (ret a).
Proof.
  exists (Ok a), []. split; [constructor|].
  intros w. unfold ret. now rewrite draw_nil.
Qed.

Lemma draws_call (o : FPDF.op) : P o -> draws P (call o).
Proof.
  intros Ho. exists (Ok tt), [o]. split; [now constructor|reflexivity].
Qed.

Lemma draws_bind {A B} (m : M A) (k : A -> M B) :
  draws P m -> (forall a, draws P (k a)) -> draws P (bind m k).
Proof.
  intros (o & ops & Hops & Hm) Hk. destruct o as [a|c|e].
  - destruct (Hk a) as (o' & ops' & Hops' & Hka).
    exists o', (ops ++ ops')%list. split; [now apply Forall_app|].
    intros w. unfold bind. now rewrite Hm, Hka, draw_draw.
  - exists (Exit c), ops. split; [assumption|].
    intros w. unfold bind. now rewrite Hm.
  - exists (Raise e), ops. split; [assumption|].
    intros w. unfold bind. now rewrite Hm.
Qed.

Lemma draws_lift_bind {A B} (r : Py.exn + A) (k : A -> M B) :
  (forall a, r = inr a -> draws P (k a)) -> draws P (bind (lift r) k).
Proof.
  intros Hk. destruct r as [e|a].
  - exists (Raise e), []. split; [constructor|].
    intros w. unfold bind, lift, raise. now rewrite draw_nil.
  - destruct (Hk a eq_refl) as (o & ops & Hops & Hka).
    exists o, ops. split; [assumption|]. intros w. apply Hka.
Qed.

Lemma draws_for_each {A} (l : list A) (body : A -> M unit) :
  (forall x, In x l -> draws P (body x)) -> draws P (for_each l body).
Proof.
  induction l as [|x l IH]; intros Hbody; simpl.
  - apply draws_ret.
  - apply draws_bind; [apply Hbody; now left|].
    intros _. apply IH. intros y Hy. apply Hbody. now right.
Qed.

End RunFacts.


(* ================================================================= *)
(** ** Pages of a document *)

Section PageFacts.
Import PDFGenerator Expected.

Lemma page_count_app (a b : list FPDF.op) :
  FPDF.page_count (a ++ b) = (FPDF.page_count a + FPDF.page_count b)%nat.
Proof. unfold FPDF.page_count. now rewrite filter_app, length_app. Qed.

Lemma line_count_app (a b : list FPDF.op) :
  FPDF.line_count (a ++ b) = (FPDF.line_count a + FPDF.line_count b)%nat.
Proof. unfold FPDF.line_count. now rewrite filter_app, length_app. Qed.

Lemma line_count_no_line (ops : list FPDF.op) :
  Forall (fun o => FPDF.is_line o = false) ops -> FPDF.line_count ops = O.
Proof.
  unfold FPDF.line_count. induction 1 as [|o ops Ho _ IH]; simpl.
  - reflexivity.
  - now rewrite Ho.
Qed.

Lemma line_offsets_app (a b : list FPDF.op) :
  FPDF.line_offsets (a ++ b) = (FPDF.line_offsets a ++ FPDF.line_offsets b)%list.
Proof.
  induction a as [|o a IH]; simpl; [reflexivity|].
  destruct o; simpl; now rewrite IH.
Qed.

Lemma line_offsets_lines (ys : list Z) :
  FPDF.line_offsets (map (fun y => FPDF.Line 10 y 200 y) ys) = ys.
Proof. induction ys as [|y ys IH]; simpl; [reflexivity|now rewrite IH]. Qed.

Lemma texts_app (a b : list FPDF.op) :
  FPDF.texts (a ++ b) = (FPDF.texts a ++ FPDF.texts b)%list.
Proof.
  induction a as [|o a IH]; simpl; [reflexivity|].
  destruct o; simpl; now rewrite IH.
Qed.

Lemma texts_lines (ys : list Z) :
  FPDF.texts (map (fun y => FPDF.Line 10 y 200 y) ys) = [].
Proof. induction ys as [|y ys IH]; simpl; [reflexivity|assumption]. Qed.

Lemma page_body_texts (self : t) (topic : string) :
  FPDF.texts (page_body self topic) = [topic; topic].
Proof.
  unfold page_body. simpl. now rewrite texts_app, texts_lines.
Qed.

Lemma page_body_no_add_page (self : t) (topic : string) :
  Forall (fun o => FPDF.is_add_page o = false) (page_body self topic).
Proof.
  unfold page_body. repeat (apply Forall_cons; [reflexivity|]).
  apply Forall_app. split.
  - apply Forall_forall. intros o Ho. apply in_map_iff in Ho.
    destruct Ho as (y & <- & _). reflexivity.
  - repeat constructor.
Qed.

Lemma page_count_no_add_page (ops : list FPDF.op) :
  Forall (fun o => FPDF.is_add_page o = false) ops -> FPDF.page_count ops = O.
Proof.
  unfold FPDF.page_count. induction 1 as [|o ops Ho _ IH]; simpl.
  - reflexivity.
  - now rewrite Ho.
Qed.

Lemma page_count_page_calls (self : t) (topic : string) :
  FPDF.page_count (page_calls self topic) = 1%nat.
Proof.
  unfold page_calls.
  change (FPDF.AddPage :: page_body self topic)
    with ([FPDF.AddPage] ++ page_body self topic)%list.
  rewrite page_count_app, (page_count_no_add_page (page_body self topic)).
  - reflexivity.
  - apply page_body_no_add_page.
Qed.

Lemma page_count_pages (self : t) (topics : list string) :
  FPDF.page_count (flat_map (page_calls self) topics) = List.length topics.
Proof.
  induction topics as [|topic topics IH]; cbn [flat_map List.length].
  - reflexivity.
  - now rewrite page_count_app, page_count_page_calls, IH.
Qed.

(** Calls that add no page stay on the page they are made on. *)
Lemma split_no_add_page (pre rest : list FPDF.op) :
  Forall (fun o => FPDF.is_add_page o = false) pre ->
  FPDF.split (pre ++ rest) =
  ((pre ++ fst (FPDF.split rest))%list, snd (FPDF.split rest)).
Proof.
  induction 1 as [|o pre Ho _ IH]; simpl.
  - now destruct (FPDF.split rest).
  - destruct o; try discriminate Ho; now rewrite IH.
Qed.

Lemma split_pages (self : t) (topics : list string) :
  FPDF.split (flat_map (page_calls self) topics) =
  ([], map (page_body self) topics).
Proof.
  induction topics as [|topic topics IH]; cbn [flat_map map]; [reflexivity|].
  unfold page_calls at 1. cbn [app FPDF.split].
  rewrite split_no_add_page by apply page_body_no_add_page.
  rewrite IH. cbn [fst snd]. now rewrite app_nil_r.
Qed.

(** On a document that has no page yet, the pages drawn for a list of
    topics are the pages of the document. *)
Lemma pages_after (self : t) (pre : list FPDF.op) (topics : list string) :
  FPDF.page_count pre = O ->
  FPDF.pages (pre ++ flat_map (page_calls self) topics) =
  map (page_body self) topics.
Proof.
  intros Hpre. unfold FPDF.pages. rewrite split_no_add_page.
  - now rewrite split_pages.
  - unfold FPDF.page_count in Hpre. apply Forall_forall. intros o Ho.
    destruct (FPDF.is_add_page o) eqn:E; [|reflexivity].
    assert (In o (filter FPDF.is_add_page pre)) as Hin
      by (apply filter_In; now split).
    destruct (filter FPDF.is_add_page pre); [destruct Hin|discriminate Hpre].
Qed.

Lemma close_blank (doc : list FPDF.op) :
  FPDF.page_count doc = O -> FPDF.close doc = (doc ++ [FPDF.AddPage])%list.
Proof. intros H0. unfold FPDF.close. now rewrite H0. Qed.

Lemma close_paged (doc : list FPDF.op) :
  FPDF.page_count doc <> O -> FPDF.close doc = doc.
Proof.
  intros Hn. unfold FPDF.close.
  destruct (Nat.eqb_spec (FPDF.page_count doc) 0); [contradiction|reflexivity].
Qed.

(** Closing adds at most the blank page. *)
Lemma close_tail (doc : list FPDF.op) :
  exists tail,
    FPDF.close doc = (doc ++ tail)%list /\
    (tail = [] \/ tail = [FPDF.AddPage]).
Proof.
  unfold FPDF.close. destruct (FPDF.page_count doc =? 0)%nat.
  - exists [FPDF.AddPage]. split; [reflexivity|now right].
  - exists []. split; [now rewrite app_nil_r|now left].
Qed.

Lemma page_count_close (doc : list FPDF.op) :
  Z.of_nat (FPDF.page_count (FPDF.close doc))
  = Z.max (Z.of_nat (FPDF.page_count doc)) 1.
Proof.
  unfold FPDF.close. destruct (Nat.eqb_spec (FPDF.page_count doc) 0) as [H0|Hn].
  - rewrite page_count_app, H0. cbn. lia.
  - lia.
Qed.

Lemma line_count_close (doc : list FPDF.op) :
  FPDF.line_count (FPDF.close doc) = FPDF.line_count doc.
Proof.
  destruct (close_tail doc) as (tail & -> & [->| ->]);
    rewrite line_count_app; cbn; lia.
Qed.

End PageFacts.

(* ================================================================= *)
(** ** The methods of [PDFGenerator] *)

Section GeneratorFacts.
Import Run PDFGenerator Expected.

Lemma bind_call {B} (o : FPDF.op) (k : unit -> M B) (w : world) :
  bind (call o) k w = k tt (draw [o] w).
Proof. reflexivity. Qed.

Lemma range3_nonzero (start stop step : Z) :
  step <> 0 -> exists ys, Py.range3 start stop step = inr ys.
Proof.
  intros Hs. unfold Py.range3.
  destruct (Z.eqb_spec step 0); [contradiction|].
  destruct (0 <? step); eauto.
Qed.

Lemma range3_nonpositive (step : Z) (ys : list Z) :
  step <= 0 -> Py.range3 20 298 step = inr ys -> ys = [].
Proof.
  intros Hs. unfold Py.range3.
  destruct (Z.eqb_spec step 0); [discriminate|].
  destruct (Z.ltb_spec 0 step); [lia|].
  intros [= <-]. reflexivity.
Qed.

(** With a spacing other than zero, [add_page] makes the calls of one page
    and returns. *)
Lemma add_page_ok (self : t) (topic : string) (w : world) :
  line_spacing self <> 0 ->
  add_page self topic w = (Ok tt, draw (page_calls self topic) w).
Proof.
  intros Hs. destruct (range3_nonzero 20 298 _ Hs) as (ys & Hys).
  unfold add_page, page_calls, page_body, rule_offsets. rewrite Hys.
  repeat (rewrite bind_call; cbv beta).
  change (lift (inr ys)) with (@ret (list Z) ys).
  unfold bind at 1, ret at 1. unfold bind at 1. rewrite for_each_calls.
  repeat (rewrite bind_call; cbv beta).
  unfold call. now rewrite !draw_draw.
Qed.

Lemma for_each_add_pages {A} (self : t) (topic : string) (l : list A) :
  line_spacing self <> 0 ->
  forall w,
    for_each l (fun _ => add_page self topic) w =
    (Ok tt, draw (flat_map (page_calls self) (repeat topic (List.length l))) w).
Proof.
  intros Hs. induction l as [|x l IH]; intros w; cbn [for_each].
  - unfold ret. now rewrite draw_nil.
  - unfold bind. rewrite add_page_ok by assumption.
    rewrite IH, draw_draw. reflexivity.
Qed.

(** A row read as topic [t] and integer [p] gets [max(p, 1)] pages. *)
Lemma generate_row_reads (self : t) (h : host) (row : Pandas.Series)
      (tp : Py.value * Z) (w : world) :
  reads row tp ->
  line_spacing self <> 0 ->
  generate_row self h row w =
  (Ok tt, draw (flat_map (page_calls self)
                  (repeat (Py.str (float_repr h) (fst tp))
                          (Z.to_nat (Z.max (snd tp) 1)))) w).
Proof.
  intros [Ht Hp] Hs. unfold generate_row. rewrite Ht, Hp.
  cbn [Py.int lift]. unfold bind at 1, ret at 1. unfold bind at 1, ret at 1.
  unfold bind. rewrite add_page_ok by assumption.
  rewrite for_each_add_pages by assumption.
  rewrite range1_length, draw_draw.
  replace (Z.to_nat (Z.max (snd tp) 1)) with (S (Z.to_nat (snd tp - 1))) by lia.
  reflexivity.
Qed.

Lemma for_each_rows (self : t) (h : host) (rows : list Pandas.Series)
      (tps : list (Py.value * Z)) :
  Forall2 reads rows tps ->
  line_spacing self <> 0 ->
  forall w,
    for_each rows (generate_row self h) w =
    (Ok tt, draw (flat_map (page_calls self) (page_topics h tps)) w).
Proof.
  intros Hrows Hs. induction Hrows as [|row tp rows tps Hrow _ IH];
    intros w; cbn [for_each].
  - unfold ret. now rewrite draw_nil.
  - unfold bind. rewrite (generate_row_reads self h row tp) by assumption.
    rewrite IH, draw_draw. unfold page_topics. cbn [flat_map].
    now rewrite flat_map_app.
Qed.

Lemma issubset_required (cols : list string) :
  Pandas.issubset required_columns cols = true <->
  In "Topic" cols /\ In "Pages" cols.
Proof.
  unfold Pandas.issubset, required_columns. cbn [forallb].
  rewrite !andb_true_iff, !existsb_exists.
  split.
  - intros [(x & Hx & Ex) [(y & Hy & Ey) _]].
    apply String.eqb_eq in Ex, Ey. now subst.
  - intros [Ht Hp]. repeat split.
    + exists "Topic". split; [assumption|apply String.eqb_refl].
    + exists "Pages". split; [assumption|apply String.eqb_refl].
Qed.

(** The last two statements of [generate]: the write and the message. *)
Lemma finish_cases (h : host) (path msg : string) (w1 : world) :
  bind (output h path) (fun _ => print msg) w1 =
  match output_error h path (FPDF.close (pdf w1)) with
  | None => (Ok tt, say msg (store path (attempt path w1)))
  | Some e => (Raise e, attempt path w1)
  end.
Proof.
  unfold bind, output, print. cbv zeta. cbn [attempt pdf].
  now destruct (output_error h path (FPDF.close (pdf w1))).
Qed.

(** Once the file is found, parsed and has both columns, [generate] is the
    loop over the rows followed by the write and the final message. *)
Lemma generate_loaded (self : t) (h : host) (df : Pandas.DataFrame) (w : world) :
  isfile h (csv_path self) = true ->
  read_csv h (csv_path self) = inr df ->
  In "Topic" (Pandas.columns df) -> In "Pages" (Pandas.columns df) ->
  generate self h w =
  bind (for_each (Pandas.iterrows df) (generate_row self h))
       (fun _ => bind (output h (output_path self))
                      (fun _ => print ("PDF generated successfully: "
                                       ++ output_path self))) w.
Proof.
  intros Hf Hr Ht Hp. unfold generate. rewrite Hf, Hr. cbn [negb].
  now rewrite (proj2 (issubset_required _) (conj Ht Hp)).
Qed.

(** The run on a valid file whose rows all read as a topic and an integer. *)
Lemma generate_valid (self : t) (h : host) (df : Pandas.DataFrame)
      (tps : list (Py.value * Z)) (w : world) :
  isfile h (csv_path self) = true ->
  read_csv h (csv_path self) = inr df ->
  In "Topic" (Pandas.columns df) -> In "Pages" (Pandas.columns df) ->
  Forall2 reads (Pandas.iterrows df) tps ->
  line_spacing self <> 0 ->
  generate self h w =
  let w1 := draw (flat_map (page_calls self) (page_topics h tps)) w in
  match output_error h (output_path self) (FPDF.close (pdf w1)) with
  | None =>
      (Ok tt, say ("PDF generated successfully: " ++ output_path self)
                  (store (output_path self) (attempt (output_path self) w1)))
  | Some e => (Raise e, attempt (output_path self) w1)
  end.
Proof.
  intros Hf Hr Ht Hp Hrows Hs.
  rewrite (generate_loaded self h df) by assumption.
  unfold bind at 1. rewrite (for_each_rows self h _ tps) by assumption.
  apply finish_cases.
Qed.

End GeneratorFacts.

(* ================================================================= *)
(** ** What any run can draw *)

Section Invariants.
Import Run PDFGenerator Expected.

Variable P : FPDF.op -> Prop.
Variable self : t.
Hypothesis P_other : forall o, FPDF.is_line o = false -> P o.
Hypothesis P_rules :
  forall ys y, Py.range3 20 298 (line_spacing self) = inr ys ->
               In y ys -> P (FPDF.Line 10 y 200 y).

Ltac plain_calls :=
  repeat (apply draws_bind;
          [apply draws_call; apply P_other; reflexivity | intros _]).

Lemma draws_add_page (topic : string) : draws P (add_page self topic).
Proof.
  unfold add_page. plain_calls.
  apply draws_lift_bind. intros ys Hys. apply draws_bind.
  - apply draws_for_each. intros y Hy. apply draws_call.
    now apply (P_rules ys).
  - intros _. plain_calls. apply draws_call, P_other. reflexivity.
Qed.

Lemma draws_generate_row (h : host) (row : Pandas.Series) :
  draws P (generate_row self h row).
Proof.
  unfold generate_row.
  apply draws_lift_bind. intros cell _. cbv zeta.
  apply draws_lift_bind. intros pages _.
  apply draws_bind; [apply draws_add_page|intros _].
  apply draws_for_each. intros _ _. apply draws_add_page.
Qed.

Lemma draws_rows (h : host) (rows : list Pandas.Series) :
  draws P (for_each rows (generate_row self h)).
Proof. apply draws_for_each. intros row _. apply draws_generate_row. Qed.

(** Whatever the input and however the run ends, [generate] only adds
    calls to the document, and only calls that satisfy [P]. *)
Lemma generate_draws (h : host) (w : world) :
  exists ops, Forall P ops /\
              pdf (snd (generate self h w)) = (pdf w ++ ops)%list.
Proof.
  assert (exists ops, Forall P ops /\ pdf w = (pdf w ++ ops)%list) as Hnone.
  { exists []. split; [constructor|now rewrite app_nil_r]. }
  unfold generate. destruct (isfile h (csv_path self)); cbn [negb].
  2: exact Hnone.
  destruct (read_csv h (csv_path self)) as [e|df].
  1: exact Hnone.
  destruct (Pandas.issubset required_columns (Pandas.columns df)); cbn [negb].
  2: exact Hnone.
  destruct (draws_rows h (Pandas.iterrows df)) as (o & ops & Hops & Hm).
  unfold bind at 1. rewrite Hm. destruct o as [[]|c|e].
  - rewrite finish_cases.
    destruct (close_tail (pdf (draw ops w))) as (tail & Hc & Htail).
    exists (ops ++ tail)%list. split.
    + apply Forall_app. split; [assumption|].
      destruct Htail as [->| ->]; repeat constructor.
      now apply P_other.
    + destruct (output_error h (output_path self) (FPDF.close (pdf (draw ops w))));
        cbn [snd say store attempt pdf]; rewrite Hc; cbn [draw pdf];
        now rewrite app_assoc.
  - exists ops. now split.
  - exists ops. now split.
Qed.

End Invariants.

(* ================================================================= *)
(** ** Page counts and page order *)

Section Counting.
Import Run PDFGenerator Expected.

Lemma total_pages_nonneg (tps : list (Py.value * Z)) : 0 <= total_pages tps.
Proof. induction tps as [|tp tps IH]; simpl; lia. Qed.

Lemma page_topics_length (h : host) (tps : list (Py.value * Z)) :
  List.length (page_topics h tps) = Z.to_nat (total_pages tps).
Proof.
  unfold page_topics. induction tps as [|tp tps IH]; cbn [flat_map total_pages fold_right].
  - reflexivity.
  - pose proof (total_pages_nonneg tps). unfold total_pages in *.
    rewrite length_app, repeat_length, IH. lia.
Qed.


Lemma header_page_body (self : t) (topic : string) :
  FPDF.header (page_body self topic) = Some topic.
Proof. unfold FPDF.header. now rewrite page_body_texts. Qed.


(** The document after a run on a valid file, whether or not the write
    succeeds. *)
Lemma generate_valid_pdf (self : t) (h : host) (df : Pandas.DataFrame)
      (tps : list (Py.value * Z)) (w : world) :
  isfile h (csv_path self) = true ->
  read_csv h (csv_path self) = inr df ->
  In "Topic" (Pandas.columns df) -> In "Pages" (Pandas.columns df) ->
  Forall2 reads (Pandas.iterrows df) tps ->
  line_spacing self <> 0 ->
  pdf (snd (generate self h w))
  = FPDF.close (pdf w ++ flat_map (page_calls self) (page_topics h tps)).
Proof.
  intros Hf Hr Ht Hp Hrows Hs.
  rewrite (generate_valid self h df tps) by assumption. cbv zeta.
  now destruct (output_error h (output_path self)
                  (FPDF.close
                     (pdf (draw (flat_map (page_calls self) (page_topics h tps))
                                w)))).
Qed.

(** A document to which the pages of at least one row were added has a
    page, so closing it changes nothing. *)
Lemma close_row_pages (self : t) (h : host) (pre : list FPDF.op)
      (tps : list (Py.value * Z)) :
  tps <> [] ->
  FPDF.close (pre ++ flat_map (page_calls self) (page_topics h tps))
  = (pre ++ flat_map (page_calls self) (page_topics h tps))%list.
Proof.
  intros Hne. apply close_paged.
  rewrite page_count_app, page_count_pages, page_topics_length.
  destruct tps as [|tp tps]; [contradiction|].
  cbn [total_pages fold_right]. pose proof (total_pages_nonneg tps) as Hnn.
  unfold total_pages in Hnn. lia.
Qed.

End Counting.

(* ================================================================= *)
(** ** Rule lines *)

Section RuleLines.
Import Run PDFGenerator Expected.

Lemma rule_offsets_positive (s : Z) :
  0 < s ->
  rule_offsets s =
  map (fun i => 20 + Z.of_nat i * s)
      (seq 0 (Z.to_nat (ceil_div (298 - 20) s))).
Proof.
  intros Hs. unfold rule_offsets, Py.range3.
  destruct (Z.eqb_spec s 0); [lia|].
  destruct (Z.ltb_spec 0 s); [|lia].
  now rewrite range_up_progression by lia.
Qed.

Lemma rule_offsets_negative (s : Z) : s < 0 -> rule_offsets s = [].
Proof.
  intros Hs. unfold rule_offsets, Py.range3.
  destruct (Z.eqb_spec s 0); [lia|].
  destruct (Z.ltb_spec 0 s); [lia|reflexivity].
Qed.

Lemma line_count_offsets (ops : list FPDF.op) :
  FPDF.line_count ops = List.length (FPDF.line_offsets ops).
Proof.
  unfold FPDF.line_count. induction ops as [|o ops IH]; [reflexivity|].
  destruct o; simpl; now rewrite ?IH.
Qed.

Lemma page_calls_offsets (self : t) (topic : string) :
  FPDF.line_offsets (page_calls self topic) = rule_offsets (line_spacing self).
Proof.
  unfold page_calls, page_body. cbn [app FPDF.line_offsets].
  rewrite line_offsets_app, line_offsets_lines. cbn [FPDF.line_offsets].
  now rewrite app_nil_r.
Qed.

End RuleLines.

(* ================================================================= *)
(** ** Runs that end early, and runs compared *)

Section Outcomes.
Import Run PDFGenerator Expected.

Lemma main_run (args : cli) (h : host) (w : world) :
  main args h w = generate (configured args) h (fresh w).
Proof. reflexivity. Qed.

Lemma generate_not_found (self : t) (h : host) (w : world) :
  isfile h (csv_path self) = false ->
  generate self h w =
  (Exit 1, say ("Error: CSV file not found: " ++ csv_path self) w).
Proof. intros Hf. unfold generate. now rewrite Hf. Qed.

Lemma generate_unreadable (self : t) (h : host) (e : string) (w : world) :
  isfile h (csv_path self) = true ->
  read_csv h (csv_path self) = inl e ->
  generate self h w = (Exit 1, say ("Error reading CSV: " ++ e) w).
Proof. intros Hf Hr. unfold generate. now rewrite Hf, Hr. Qed.

Lemma generate_missing_columns (self : t) (h : host) (df : Pandas.DataFrame)
      (w : world) :
  isfile h (csv_path self) = true ->
  read_csv h (csv_path self) = inr df ->
  ~ In "Topic" (Pandas.columns df) \/ ~ In "Pages" (Pandas.columns df) ->
  generate self h w =
  (Exit 1, say ("Error: CSV must contain columns: " ++ required_columns_repr h) w).
Proof.
  intros Hf Hr Hcols. unfold generate. rewrite Hf, Hr. cbn [negb].
  destruct (Pandas.issubset required_columns (Pandas.columns df)) eqn:E.
  - apply issubset_required in E. tauto.
  - reflexivity.
Qed.

(** [generate] once the loop over the rows has ended. *)
Lemma generate_after_rows (self : t) (h : host) (df : Pandas.DataFrame)
      (w w1 : world) (o : outcome unit) :
  isfile h (csv_path self) = true ->
  read_csv h (csv_path self) = inr df ->
  Pandas.issubset required_columns (Pandas.columns df) = true ->
  for_each (Pandas.iterrows df) (generate_row self h) w = (o, w1) ->
  generate self h w =
  match o with
  | Ok _ =>
      match output_error h (output_path self) (FPDF.close (pdf w1)) with
      | None =>
          (Ok tt, say ("PDF generated successfully: " ++ output_path self)
                      (store (output_path self) (attempt (output_path self) w1)))
      | Some e => (Raise e, attempt (output_path self) w1)
      end
  | Exit c => (Exit c, w1)
  | Raise e => (Raise e, w1)
  end.
Proof.
  intros Hf Hr Hsub Hloop. unfold generate. rewrite Hf, Hr, Hsub. cbn [negb].
  unfold bind at 1. rewrite Hloop. destruct o as [[]|c|e]; try reflexivity.
  apply finish_cases.
Qed.

Lemma for_each_ext {A} (f g : A -> M unit) (l : list A) :
  (forall x w, f x w = g x w) ->
  forall w, for_each l f w = for_each l g w.
Proof.
  intros Hfg. induction l as [|x l IH]; intros w; cbn [for_each].
  - reflexivity.
  - unfold bind. rewrite Hfg. destruct (g x w) as [[[]|c|e] w']; auto.
Qed.

Lemma str_ext (r1 r2 : Z -> Z -> string) (v : Py.value) :
  (forall m e, r1 m e = r2 m e) -> Py.str r1 v = Py.str r2 v.
Proof. intros Hr. destruct v as [n|[m e| |neg]|s|b]; simpl; auto. Qed.

Lemma add_page_ext (self1 self2 : t) (topic : string) :
  line_spacing self1 = line_spacing self2 ->
  font_size self1 = font_size self2 ->
  add_page self1 topic = add_page self2 topic.
Proof. intros Hs Hf. unfold add_page. now rewrite Hs, Hf. Qed.

Lemma int_ext (f g : string -> Py.exn + Z) (v : Py.value) :
  (forall s, f s = g s) -> Py.int f v = Py.int g v.
Proof. intros Hfg. destruct v as [n|[m e| |neg]|s|b]; simpl; auto. Qed.

(** The loop body depends on the generator only through the spacing and
    the font size, and on the host only through what the interpreter
    makes of floats and of text. *)
Lemma generate_row_ext (self1 self2 : t) (h1 h2 : host) (row : Pandas.Series) :
  line_spacing self1 = line_spacing self2 ->
  font_size self1 = font_size self2 ->
  (forall m e, float_repr h1 m e = float_repr h2 m e) ->
  (forall s, int_text h1 s = int_text h2 s) ->
  forall w, generate_row self1 h1 row w = generate_row self2 h2 row w.
Proof.
  intros Hs Hf Hr Hi w. unfold generate_row.
  destruct (Pandas.getitem row "Topic") as [e|cell]; [reflexivity|].
  cbn [lift]. unfold bind at 1 3, ret at 1 2.
  rewrite (str_ext _ _ cell Hr).
  rewrite (int_ext _ _ (Pandas.get row "Pages" (Py.VInt 1)) Hi).
  now rewrite (add_page_ext self1 self2 _ Hs Hf).
Qed.

End Outcomes.

(* ================================================================= *)
(** ** Properties of the program *)

Section Claims.
Import Py Pandas Run PDFGenerator Expected.

(** C1 (as amended): on a valid input (the file exists, parses and has
    both columns) whose rows each read as a topic [t] and an integer [p],
    and with a line spacing other than zero, the loop body draws exactly
    [max(p, 1)] pages for the row (one page when [p <= 0]), and the run
    adds the pages of the rows in order, [sum max(Pages, 1)] pages in all.
    [output] then closes the document, which gives it one blank page if
    it has none: on a document that had no page the final count is the
    sum when there is a row and 1 when there is none.  When [output]
    succeeds the run ends normally and the file holds that document. *)
Theorem generate_emits_max_pages_per_row :
  forall (self : t) (h : host) (df : DataFrame) (tps : list (value * Z))
         (w : world),
    isfile h (csv_path self) = true ->
    read_csv h (csv_path self) = inr df ->
    In "Topic" (columns df) -> In "Pages" (columns df) ->
    Forall2 reads (iterrows df) tps ->
    line_spacing self <> 0 ->
    (forall row t p w1,
        reads row (t, p) ->
        let drawn := flat_map (page_calls self)
                       (repeat (str (float_repr h) t) (Z.to_nat (Z.max p 1))) in
        generate_row self h row w1 = (Ok tt, draw drawn w1) /\
        Z.of_nat (FPDF.page_count drawn) = Z.max p 1 /\
        (p <= 0 -> FPDF.page_count drawn = 1%nat)) /\
    (let added := flat_map (page_calls self) (page_topics h tps) in
     Z.of_nat (FPDF.page_count added) = total_pages tps /\
     pdf (snd (generate self h w)) = FPDF.close (pdf w ++ added) /\
     (FPDF.page_count (pdf w) = 0%nat ->
      Z.of_nat (FPDF.page_count (pdf (snd (generate self h w))))
      = Z.max (total_pages tps) 1) /\
     (output_error h (output_path self) (FPDF.close (pdf w ++ added)) = None ->
      fst (generate self h w) = Ok tt /\
      disk (snd (generate self h w))
      = (output_path self, FPDF.close (pdf w ++ added)) :: disk w)).
Proof.
  intros self h df tps w Hf Hr Ht Hp Hrows Hs. split.
  - intros row t p w1 Hrow drawn. subst drawn. split; [|split].
    + now apply (generate_row_reads self h row (t, p)).
    + rewrite page_count_pages, repeat_length. lia.
    + intros Hle. rewrite page_count_pages, repeat_length. lia.
  - cbv zeta. pose proof (total_pages_nonneg tps) as Hnn.
    assert (Z.of_nat (FPDF.page_count
                        (flat_map (page_calls self) (page_topics h tps)))
            = total_pages tps) as Hadded.
    { rewrite page_count_pages, page_topics_length. lia. }
    split; [exact Hadded|]. split; [|split].
    + now apply (generate_valid_pdf self h df tps).
    + intros Hw. rewrite (generate_valid_pdf self h df tps) by assumption.
      rewrite page_count_close, page_count_app, Hw. cbn [Nat.add].
      now rewrite Hadded.
    + intros Hout.
      rewrite (generate_valid self h df tps) by assumption. cbv zeta.
      cbn [draw pdf]. rewrite Hout. split; reflexivity.
Qed.

Lemma generate_emits_max_pages_per_row_witness :
  Z.of_nat (FPDF.page_count
              (pdf (snd (generate (Sample.generator "topics.csv" 50)
                                  (Sample.host_with Sample.math_history true)
                                  Sample.empty_world)))) = 3.
Proof.
  refine (proj1 (proj2 (proj2 (proj2
    (generate_emits_max_pages_per_row
       (Sample.generator "topics.csv" 50)
       (Sample.host_with Sample.math_history true)
       Sample.math_history
       [(VStr "Math", 2); (VStr "History", 1)]
       Sample.empty_world
       eq_refl eq_refl _ _ _ _)))) eq_refl).
  - simpl; auto.
  - simpl; auto.
  - repeat constructor.
  - discriminate.
Defined.

(** For a file with both columns and no row the sum of [max(Pages, 1)] is
    0, but the file written holds one page: the blank page [output] adds
    to a document without pages. *)
Lemma header_only_file_has_one_page :
  fst (generate (Sample.generator "topics.csv" 10)
                (Sample.host_with (Sample.frame []) true)
                Sample.empty_world) = Ok tt /\
  disk (snd (generate (Sample.generator "topics.csv" 10)
                      (Sample.host_with (Sample.frame []) true)
                      Sample.empty_world))
  = [("out.pdf", [FPDF.AddPage])] /\
  Z.of_nat (FPDF.page_count [FPDF.AddPage]) <> total_pages [].
Proof. repeat split. discriminate. Qed.




(** C4 (as amended): with a positive line spacing [s], [add_page] draws
    its rule lines at the offsets [20, 20 + s, 20 + 2 s, ...] that are
    below 298, so [ceil((298 - 20) / s)] lines per page; with [s = 50] that
    is 6 lines. *)
Theorem add_page_rule_lines :
  forall (self : t) (topic : string) (w : world),
    0 < line_spacing self ->
    let s := line_spacing self in
    let n := Z.to_nat (ceil_div (298 - 20) s) in
    add_page self topic w = (Ok tt, draw (page_calls self topic) w) /\
    FPDF.line_offsets (page_calls self topic)
    = map (fun i => 20 + Z.of_nat i * s) (seq 0 n) /\
    FPDF.line_count (page_calls self topic) = n /\
    (s = 50 -> FPDF.line_count (page_calls self topic) = 6%nat).
Proof.
  intros self topic w Hs s n.
  assert (FPDF.line_offsets (page_calls self topic)
          = map (fun i => 20 + Z.of_nat i * s) (seq 0 n)) as Hoff.
  { rewrite page_calls_offsets. now apply rule_offsets_positive. }
  assert (FPDF.line_count (page_calls self topic) = n) as Hn.
  { now rewrite line_count_offsets, Hoff, length_map, length_seq. }
  split; [apply add_page_ok; lia|]. split; [exact Hoff|]. split; [exact Hn|].
  intros H50. rewrite Hn. subst n. now rewrite H50.
Qed.

Lemma add_page_rule_lines_witness :
  FPDF.line_count (page_calls (Sample.generator "topics.csv" 50) "Math")
  = 6%nat.
Proof.
  refine (proj2 (proj2 (proj2
    (add_page_rule_lines (Sample.generator "topics.csv" 50) "Math"
                         Sample.empty_world _))) eq_refl).
  reflexivity.
Defined.

(** With [--lines 50] a page gets 6 rule lines (at 20, 70, 120, 170, 220
    and 270), not [floor((298 - 20) / 50) = 5]. *)
Lemma rule_lines_50_not_floor :
  FPDF.line_offsets
    (pdf (snd (add_page (Sample.generator "topics.csv" 50) "Math"
                        Sample.empty_world)))
  = [20; 70; 120; 170; 220; 270] /\
  FPDF.line_count
    (pdf (snd (add_page (Sample.generator "topics.csv" 50) "Math"
                        Sample.empty_world)))
  <> Z.to_nat ((298 - 20) / 50).
Proof. split; [reflexivity|discriminate]. Qed.

(** C3 (as amended): a line spacing [<= 0] is not rejected.  No rule line
    is ever drawn under it, whatever the input; and with a negative spacing
    a valid input is processed like any other: every page is drawn with
    header and footer only, [output] is called, and the run ends normally
    when the write succeeds. *)
Theorem nonpositive_spacing_draws_no_rule_line :
  forall (self : t) (h : host) (w : world),
    line_spacing self <= 0 ->
    FPDF.line_count (pdf (snd (generate self h w))) = FPDF.line_count (pdf w) /\
    (line_spacing self < 0 ->
     forall (df : DataFrame) (tps : list (value * Z)),
       isfile h (csv_path self) = true ->
       read_csv h (csv_path self) = inr df ->
       In "Topic" (columns df) -> In "Pages" (columns df) ->
       Forall2 reads (iterrows df) tps ->
       (forall topic,
           page_calls self topic
           = [FPDF.AddPage;
              FPDF.SetFont "Arial" "B" (font_size self);
              FPDF.SetTextColor 100 100 100;
              FPDF.Cell 0 12 topic "L" 1;
              FPDF.Ln 265;
              FPDF.SetFont "Arial" "I" 8;
              FPDF.SetTextColor 180 180 180;
              FPDF.Cell 0 10 topic "R" 0]) /\
       pdf (snd (generate self h w))
       = FPDF.close (pdf w ++ flat_map (page_calls self) (page_topics h tps)) /\
       output_calls (snd (generate self h w))
       = (output_calls w ++ [output_path self])%list /\
       (output_error h (output_path self)
          (FPDF.close (pdf w ++ flat_map (page_calls self) (page_topics h tps)))
        = None ->
        fst (generate self h w) = Ok tt)).
Proof.
  intros self h w Hs. split.
  - destruct (generate_draws (fun o => FPDF.is_line o = false) self) with (h := h) (w := w)
      as (ops & Hops & Hpdf).
    + auto.
    + intros ys y Hys Hy. apply range3_nonpositive in Hys; [|assumption].
      subst ys. destruct Hy.
    + rewrite Hpdf, line_count_app, (line_count_no_line ops Hops). lia.
  - intros Hneg df tps Hf Hr Ht Hp Hrows. split.
    + intros topic. unfold page_calls, page_body.
      now rewrite rule_offsets_negative.
    + rewrite (generate_valid self h df tps) by (assumption || lia). cbv zeta.
      cbn [draw pdf].
      destruct (output_error h (output_path self)
                  (FPDF.close
                     (pdf w ++ flat_map (page_calls self) (page_topics h tps))));
        cbn [fst snd]; repeat split; discriminate.
Qed.

Lemma nonpositive_spacing_draws_no_rule_line_witness :
  FPDF.line_count
    (pdf (snd (generate (Sample.generator "topics.csv" (-5))
                        (Sample.host_with Sample.math_history true)
                        Sample.empty_world))) = 0%nat /\
  fst (generate (Sample.generator "topics.csv" (-5))
                (Sample.host_with Sample.math_history true)
                Sample.empty_world) = Ok tt.
Proof.
  assert (line_spacing (Sample.generator "topics.csv" (-5)) <= 0) as Hs
    by discriminate.
  split.
  - exact (proj1 (nonpositive_spacing_draws_no_rule_line
                    (Sample.generator "topics.csv" (-5))
                    (Sample.host_with Sample.math_history true)
                    Sample.empty_world Hs)).
  - refine (proj2 (proj2 (proj2
      (proj2 (nonpositive_spacing_draws_no_rule_line
                (Sample.generator "topics.csv" (-5))
                (Sample.host_with Sample.math_history true)
                Sample.empty_world Hs)
             eq_refl Sample.math_history
             [(VStr "Math", 2); (VStr "History", 1)]
             eq_refl eq_refl _ _ _))) eq_refl).
    + simpl; auto.
    + simpl; auto.
    + repeat constructor.
Defined.

(** With [--lines -5] nothing is rejected: the run ends normally, the three
    pages are drawn and the file is written. *)
Lemma negative_spacing_not_rejected :
  line_spacing (Sample.generator "topics.csv" (-5)) <= 0 /\
  fst (generate (Sample.generator "topics.csv" (-5))
                (Sample.host_with Sample.math_history true)
                Sample.empty_world) = Ok tt /\
  FPDF.page_count
    (pdf (snd (generate (Sample.generator "topics.csv" (-5))
                        (Sample.host_with Sample.math_history true)
                        Sample.empty_world))) = 3%nat /\
  List.length
    (disk (snd (generate (Sample.generator "topics.csv" (-5))
                         (Sample.host_with Sample.math_history true)
                         Sample.empty_world))) = 1%nat.
Proof. split; [discriminate|]. repeat split. Qed.

(** C6: when the input path is not an existing file, [generate] prints the
    error message and exits with status 1; the document, the calls of
    [output] and the disk are as before, so nothing was written and no
    write was attempted.  The same holds of [main]. *)
Theorem generate_missing_file :
  forall (self : t) (h : host) (w : world),
    isfile h (csv_path self) = false ->
    generate self h w
    = (Exit 1, say ("Error: CSV file not found: " ++ csv_path self) w) /\
    pdf (snd (generate self h w)) = pdf w /\
    output_calls (snd (generate self h w)) = output_calls w /\
    disk (snd (generate self h w)) = disk w /\
    (forall args, configured args = self ->
       fst (main args h w) = Exit 1 /\
       stdout (snd (main args h w))
       = (stdout w
          ++ [("Error: CSV file not found: " ++ csv_path self)%string])%list /\
       output_calls (snd (main args h w)) = output_calls w /\
       disk (snd (main args h w)) = disk w).
Proof.
  intros self h w Hf.
  rewrite (generate_not_found self h w Hf).
  do 4 (split; [reflexivity|]).
  intros args <-. rewrite main_run, generate_not_found by assumption.
  repeat split.
Qed.

Lemma generate_missing_file_witness :
  generate (Sample.generator "absent.csv" 10)
           (Sample.host_with Sample.math_history true) Sample.empty_world
  = (Exit 1, say "Error: CSV file not found: absent.csv" Sample.empty_world).
Proof.
  refine (proj1 (generate_missing_file
                   (Sample.generator "absent.csv" 10)
                   (Sample.host_with Sample.math_history true)
                   Sample.empty_world _)).
  reflexivity.
Defined.

(** C7: when the file parses but lacks the column [Topic] or the column
    [Pages], [generate] prints the error message and exits with status 1
    before the loop over the rows: the document is as before (no page was
    added), [output] was not called and the disk is unchanged.  The same
    holds of [main]. *)
Theorem generate_missing_column :
  forall (self : t) (h : host) (df : DataFrame) (w : world),
    isfile h (csv_path self) = true ->
    read_csv h (csv_path self) = inr df ->
    ~ In "Topic" (columns df) \/ ~ In "Pages" (columns df) ->
    generate self h w
    = (Exit 1,
       say ("Error: CSV must contain columns: " ++ required_columns_repr h) w) /\
    pdf (snd (generate self h w)) = pdf w /\
    output_calls (snd (generate self h w)) = output_calls w /\
    disk (snd (generate self h w)) = disk w /\
    (forall args, configured args = self ->
       fst (main args h w) = Exit 1 /\
       FPDF.page_count (pdf (snd (main args h w))) = 0%nat /\
       output_calls (snd (main args h w)) = output_calls w /\
       disk (snd (main args h w)) = disk w).
Proof.
  intros self h df w Hf Hr Hcols.
  rewrite (generate_missing_columns self h df w Hf Hr Hcols).
  do 4 (split; [reflexivity|]).
  intros args <-.
  rewrite main_run, (generate_missing_columns _ h df) by assumption.
  repeat split.
Qed.

Lemma generate_missing_column_witness :
  generate (Sample.generator "topics.csv" 10)
           (Sample.host_with Sample.no_pages_column true) Sample.empty_world
  = (Exit 1,
     say "Error: CSV must contain columns: {'Topic', 'Pages'}"
         Sample.empty_world).
Proof.
  refine (proj1 (generate_missing_column
                   (Sample.generator "topics.csv" 10)
                   (Sample.host_with Sample.no_pages_column true)
                   Sample.no_pages_column
                   Sample.empty_world eq_refl eq_refl _)).
  right. simpl. intros [H|[H|[]]]; discriminate H.
Defined.

(** C9 (as amended): a file that exists, parses and has both columns but
    no data row is not an error.  The loop draws nothing; [output] is
    called once with the output path and closes the document, which adds
    one blank page if the document has none and nothing otherwise; when
    [output] succeeds the run ends normally, the file at the output path
    holds the closed document and the success message is printed. *)
Theorem generate_no_rows :
  forall (self : t) (h : host) (df : DataFrame) (w : world),
    isfile h (csv_path self) = true ->
    read_csv h (csv_path self) = inr df ->
    In "Topic" (columns df) -> In "Pages" (columns df) ->
    rows df = [] ->
    pdf (snd (generate self h w)) = FPDF.close (pdf w) /\
    (FPDF.page_count (pdf w) = 0%nat ->
     pdf (snd (generate self h w)) = (pdf w ++ [FPDF.AddPage])%list) /\
    (FPDF.page_count (pdf w) <> 0%nat ->
     pdf (snd (generate self h w)) = pdf w) /\
    output_calls (snd (generate self h w))
    = (output_calls w ++ [output_path self])%list /\
    (output_error h (output_path self) (FPDF.close (pdf w)) = None ->
     fst (generate self h w) = Ok tt /\
     stdout (snd (generate self h w))
     = (stdout w
        ++ [("PDF generated successfully: " ++ output_path self)%string])%list /\
     disk (snd (generate self h w))
     = (output_path self, FPDF.close (pdf w)) :: disk w).
Proof.
  intros self h df w Hf Hr Ht Hp Hrows.
  assert (iterrows df = []) as Hnil.
  { unfold iterrows, values. rewrite Hrows. now destruct (upcasts df). }
  assert (generate self h w
          = match output_error h (output_path self) (FPDF.close (pdf w)) with
            | None =>
                (Ok tt,
                 say ("PDF generated successfully: " ++ output_path self)
                     (store (output_path self) (attempt (output_path self) w)))
            | Some e => (Raise e, attempt (output_path self) w)
            end) as ->.
  { rewrite (generate_loaded self h df) by assumption.
    rewrite Hnil. cbn [for_each]. unfold bind at 1, ret at 1.
    apply finish_cases. }
  destruct (output_error h (output_path self) (FPDF.close (pdf w)));
    cbn [fst snd say store attempt pdf output_calls stdout disk];
    (split; [reflexivity|]);
    (split; [now apply close_blank|]);
    (split; [now apply close_paged|]);
    (split; [reflexivity|]).
  - discriminate.
  - intros _. repeat split.
Qed.

Lemma generate_no_rows_witness :
  disk (snd (generate (Sample.generator "topics.csv" 10)
                      (Sample.host_with (Sample.frame []) true)
                      Sample.empty_world))
  = [("out.pdf", FPDF.close [])].
Proof.
  refine (proj2 (proj2
            ((proj2 (proj2 (proj2 (proj2
                (generate_no_rows
                   (Sample.generator "topics.csv" 10)
                   (Sample.host_with (Sample.frame []) true)
                   (Sample.frame [])
                   Sample.empty_world eq_refl eq_refl _ _ eq_refl)))))
             eq_refl))).
  - simpl; auto.
  - simpl; auto.
Defined.

(** The file [main] writes for a CSV with both columns and no row is not
    without pages: after the call of [__init__] it holds one page, the
    blank one [output] adds. *)
Lemma no_rows_file_has_blank_page :
  disk (snd (main (Sample.command None)
                  (Sample.host_with (Sample.frame []) true)
                  Sample.empty_world))
  = [("out.pdf", [FPDF.SetAutoPageBreak false 0; FPDF.AddPage])] /\
  FPDF.page_count [FPDF.SetAutoPageBreak false 0; FPDF.AddPage] = 1%nat.
Proof. split; reflexivity. Qed.




(** C10: the pages depend on the parsed rows and the configuration only.
    Two runs that parse the same data frame, with the same line spacing,
    font size and output path, under the same interpreter and on
    documents in the same state, leave the same document: the same pages,
    each with the same header, rule lines and footer; the paths of the CSV
    files, what was printed before, the disk and whether the write
    succeeds may differ.  When [output] fails in the same way or succeeds
    in both, the runs also end the same way. *)
Theorem generate_deterministic :
  forall (self1 self2 : t) (h1 h2 : host) (df : DataFrame) (w1 w2 : world),
    isfile h1 (csv_path self1) = true ->
    isfile h2 (csv_path self2) = true ->
    read_csv h1 (csv_path self1) = inr df ->
    read_csv h2 (csv_path self2) = inr df ->
    line_spacing self1 = line_spacing self2 ->
    font_size self1 = font_size self2 ->
    output_path self1 = output_path self2 ->
    (forall m e, float_repr h1 m e = float_repr h2 m e) ->
    (forall s, int_text h1 s = int_text h2 s) ->
    pdf w1 = pdf w2 ->
    pdf (snd (generate self1 h1 w1)) = pdf (snd (generate self2 h2 w2)) /\
    (open_error h1 (output_path self1) = open_error h2 (output_path self2) ->
     fst (generate self1 h1 w1) = fst (generate self2 h2 w2)).
Proof.
  intros self1 self2 h1 h2 df w1 w2 Hf1 Hf2 Hr1 Hr2 Hs Hfs Ho Hrepr Hint Hw.
  destruct (issubset required_columns (columns df)) eqn:Hsub.
  2: { unfold generate. rewrite Hf1, Hf2, Hr1, Hr2, Hsub. now split. }
  destruct (draws_rows (fun _ => True) self1) with (h := h1) (rows := iterrows df)
    as (o & ops & _ & Hrows); [auto|auto|].
  assert (forall w, for_each (iterrows df) (generate_row self2 h2) w
                    = (o, draw ops w)) as Hrows2.
  { intros w. rewrite <- Hrows. symmetry.
    apply for_each_ext. intros row w'. now apply generate_row_ext. }
  rewrite (generate_after_rows self1 h1 df w1 _ o Hf1 Hr1 Hsub (Hrows w1)).
  rewrite (generate_after_rows self2 h2 df w2 _ o Hf2 Hr2 Hsub (Hrows2 w2)).
  rewrite <- Ho.
  destruct o as [[]|c|e]; cbn [fst snd pdf draw]; rewrite <- ?Hw;
    [|now split|now split].
  unfold output_error.
  destruct (FPDF.encodable (FPDF.close (pdf w1 ++ ops))).
  - destruct (open_error h1 (output_path self1)) as [m1|],
             (open_error h2 (output_path self1)) as [m2|];
      cbn [option_map fst snd pdf draw say store attempt];
      rewrite <- ?Hw; (split; [reflexivity|intros Heq; congruence]).
  - cbn [fst snd pdf draw attempt]. rewrite <- Hw. now split.
Qed.

Lemma generate_deterministic_witness :
  pdf (snd (generate (Sample.generator "topics.csv" 50)
                     (Sample.host_with Sample.math_history true)
                     Sample.empty_world))
  = pdf (snd (generate (Sample.generator "topics.csv" 50)
                       (Sample.host_with Sample.math_history false)
                       (say "earlier output" Sample.empty_world))).
Proof.
  refine (proj1 (generate_deterministic
                   (Sample.generator "topics.csv" 50)
                   (Sample.generator "topics.csv" 50)
                   (Sample.host_with Sample.math_history true)
                   (Sample.host_with Sample.math_history false)
                   Sample.math_history
                   Sample.empty_world
                   (say "earlier output" Sample.empty_world)
                   eq_refl eq_refl eq_refl eq_refl eq_refl eq_refl eq_refl
                   _ _ eq_refl)).
  - reflexivity.
  - reflexivity.
Defined.

(** A [Pages] cell that [int] rejects.  The column exists, so
    [row.get("Pages", 1)] returns the cell and never the default; [int]
    raises, the row gets no page, and the loop over the rows ends with the
    exception. *)
Lemma generate_row_rejected (self : t) (h : host) (row : Series)
      (cell v : value) (e : exn) (w : world) :
  getitem row "Topic" = inr cell ->
  lookup row "Pages" = Some v ->
  int (int_text h) v = inl e ->
  get row "Pages" (VInt 1) = v /\
  generate_row self h row w = (Raise e, w) /\
  (forall rest, for_each (row :: rest) (generate_row self h) w = (Raise e, w)).
Proof.
  intros Ht Hp He.
  assert (get row "Pages" (VInt 1) = v) as Hget by (unfold get; now rewrite Hp).
  assert (generate_row self h row w = (Raise e, w)) as Hrow.
  { unfold generate_row. rewrite Ht, Hget, He. reflexivity. }
  repeat split; try assumption.
  intros rest. cbn [for_each]. unfold bind. now rewrite Hrow.
Qed.

(** C2: the code on rows whose [Pages] is missing or not a number.  For the
    file [Topic,Pages / Math,2 / History,] the run draws the two pages of
    Math and then ends with the [ValueError] of [int(NaN)]: History gets no
    page, [output] is not called and nothing is printed.  For the file
    [Topic,Pages / Math,two] the run ends with the [ValueError] of
    [int("two")] before any page.  In neither is the row given one page. *)
Theorem generate_unreadable_pages_raises :
  generate (Sample.generator "topics.csv" 10)
           (Sample.host_with Sample.missing_pages true) Sample.empty_world
  = (Raise (ValueError "cannot convert float NaN to integer"),
     draw (flat_map (page_calls (Sample.generator "topics.csv" 10))
                    ["Math"; "Math"])
          Sample.empty_world) /\
  generate (Sample.generator "topics.csv" 10)
           (Sample.host_with Sample.textual_pages true) Sample.empty_world
  = (Raise (ValueError "invalid literal for int() with base 10: 'two'"),
     Sample.empty_world).
Proof. split; reflexivity. Qed.

End Claims.

(* ================================================================= *)
(** ** The loop body, case by case *)

Section RowOutcomes.
Import Py Pandas Run PDFGenerator Expected.

(** With a zero spacing [add_page] adds the page, draws the header and
    then raises, when it builds the range of the rule lines. *)
Lemma add_page_zero (self : t) (topic : string) (w : world) :
  line_spacing self = 0 ->
  add_page self topic w
  = (Raise (ValueError "range() arg 3 must not be zero"),
     draw (header_calls self topic) w).
Proof.
  intros Hs. unfold add_page, header_calls. rewrite Hs.
  repeat (rewrite bind_call; cbv beta).
  cbn [range3 Z.eqb lift]. unfold bind, raise. now rewrite !draw_draw.
Qed.

Lemma generate_row_converts (self : t) (h : host) (row : Series)
      (tp : value * Z) (w : world) :
  converts h row tp ->
  line_spacing self <> 0 ->
  generate_row self h row w =
  (Ok tt, draw (flat_map (page_calls self)
                  (repeat (str (float_repr h) (fst tp))
                          (Z.to_nat (Z.max (snd tp) 1)))) w).
Proof.
  intros [Ht Hp] Hs. unfold generate_row. rewrite Ht, Hp.
  cbn [lift]. unfold bind at 1, ret at 1. unfold bind at 1, ret at 1.
  unfold bind. rewrite add_page_ok by assumption.
  rewrite for_each_add_pages by assumption.
  rewrite range1_length, draw_draw.
  replace (Z.to_nat (Z.max (snd tp) 1)) with (S (Z.to_nat (snd tp - 1))) by lia.
  reflexivity.
Qed.

Lemma generate_row_zero (self : t) (h : host) (row : Series)
      (tp : value * Z) (w : world) :
  converts h row tp ->
  line_spacing self = 0 ->
  generate_row self h row w =
  (Raise (ValueError "range() arg 3 must not be zero"),
   draw (header_calls self (str (float_repr h) (fst tp))) w).
Proof.
  intros [Ht Hp] Hs. unfold generate_row. rewrite Ht, Hp.
  cbn [lift]. unfold bind at 1, ret at 1. unfold bind at 1, ret at 1.
  unfold bind. now rewrite add_page_zero by assumption.
Qed.

Lemma for_each_rows_convert (self : t) (h : host) (rows : list Series)
      (tps : list (value * Z)) :
  Forall2 (converts h) rows tps ->
  line_spacing self <> 0 ->
  forall w,
    for_each rows (generate_row self h) w =
    (Ok tt, draw (flat_map (page_calls self) (page_topics h tps)) w).
Proof.
  intros Hrows Hs. induction Hrows as [|row tp rows tps Hrow _ IH];
    intros w; cbn [for_each].
  - unfold ret. now rewrite draw_nil.
  - unfold bind. rewrite (generate_row_converts self h row tp) by assumption.
    rewrite IH, draw_draw. unfold page_topics. cbn [flat_map].
    now rewrite flat_map_app.
Qed.

(** The three ways the loop body can end. *)
Lemma generate_row_cases (self : t) (h : host) (row : Series) (w : world) :
  (exists e, generate_row self h row w = (Raise e, w) /\
             forall tp, ~ converts h row tp) \/
  (exists tp, converts h row tp /\ line_spacing self = 0 /\
     generate_row self h row w
     = (Raise (ValueError "range() arg 3 must not be zero"),
        draw (header_calls self (str (float_repr h) (fst tp))) w)) \/
  (exists tp, converts h row tp /\ line_spacing self <> 0 /\
     generate_row self h row w
     = (Ok tt, draw (flat_map (page_calls self)
                       (repeat (str (float_repr h) (fst tp))
                               (Z.to_nat (Z.max (snd tp) 1)))) w)).
Proof.
  destruct (getitem row "Topic") as [e|cell] eqn:Ht.
  { left. exists e. split.
    - unfold generate_row. now rewrite Ht.
    - intros tp [Ht' _]. congruence. }
  destruct (int (int_text h) (get row "Pages" (VInt 1))) as [e|p] eqn:Hp.
  { left. exists e. split.
    - unfold generate_row. now rewrite Ht, Hp.
    - intros tp [_ Hp']. congruence. }
  assert (converts h row (cell, p)) as Hc by (split; assumption).
  right. destruct (Z.eq_dec (line_spacing self) 0) as [Hs|Hs].
  - left. exists (cell, p). repeat split; try assumption.
    now apply generate_row_zero.
  - right. exists (cell, p). repeat split; try assumption.
    now apply generate_row_converts.
Qed.

(** The loop over the rows ends normally only if every row converts and,
    unless there is no row, the spacing is not zero. *)
Lemma for_each_rows_ok (self : t) (h : host) (rows : list Series) :
  forall w w',
    for_each rows (generate_row self h) w = (Ok tt, w') ->
    exists tps,
      Forall2 (converts h) rows tps /\
      (rows <> [] -> line_spacing self <> 0) /\
      w' = draw (flat_map (page_calls self) (page_topics h tps)) w.
Proof.
  induction rows as [|row rows IH]; intros w w' Hrun; cbn [for_each] in Hrun.
  - exists []. injection Hrun as <-. repeat split; [constructor|congruence|].
    cbn. now rewrite draw_nil.
  - unfold bind in Hrun.
    destruct (generate_row_cases self h row w)
      as [(e & E & _)|[(tp & _ & _ & E)|(tp & Hc & Hs & E)]];
      rewrite E in Hrun; try discriminate.
    destruct (IH _ _ Hrun) as (tps & Hrows & _ & ->).
    exists (tp :: tps). repeat split; [now constructor|auto|].
    rewrite draw_draw. unfold page_topics. cbn [flat_map].
    now rewrite flat_map_app.
Qed.

(** The loop over the rows never calls [sys.exit], prints nothing and
    touches neither [output] nor the disk. *)
Lemma for_each_rows_quiet (self : t) (h : host) (rows : list Series) :
  forall w o w',
    for_each rows (generate_row self h) w = (o, w') ->
    (forall c, o <> Exit c) /\
    stdout w' = stdout w /\ output_calls w' = output_calls w /\
    disk w' = disk w.
Proof.
  induction rows as [|row rows IH]; intros w o w' Hrun; cbn [for_each] in Hrun.
  - injection Hrun as <- <-. repeat split. discriminate.
  - unfold bind in Hrun.
    destruct (generate_row_cases self h row w)
      as [(e & E & _)|[(tp & _ & _ & E)|(tp & _ & _ & E)]];
      rewrite E in Hrun.
    + injection Hrun as <- <-. repeat split. discriminate.
    + injection Hrun as <- <-. repeat split. discriminate.
    + destruct (IH _ _ _ Hrun) as (Ho & H1 & H2 & H3). now repeat split.
Qed.

End RowOutcomes.

(* ================================================================= *)
(** ** How a run can end *)

Section RunOutcomes.
Import Py Pandas Run PDFGenerator Expected.

Lemma for_each_app {A} (f : A -> M unit) (l1 l2 : list A) (w : world) :
  for_each (l1 ++ l2) f w = bind (for_each l1 f) (fun _ => for_each l2 f) w.
Proof.
  revert w. induction l1 as [|x l1 IH]; intros w; cbn [app for_each].
  - reflexivity.
  - unfold bind. destruct (f x w) as [[[]|c|e] w1]; try reflexivity.
    rewrite IH. reflexivity.
Qed.

Lemma missing_column_cases (cols : list string) :
  issubset required_columns cols = false ->
  ~ In "Topic" cols \/ ~ In "Pages" cols.
Proof.
  intros Hsub.
  destruct (in_dec string_dec "Topic" cols) as [Ht|Ht]; [|now left].
  destruct (in_dec string_dec "Pages" cols) as [Hp|Hp]; [|now right].
  rewrite (proj2 (issubset_required cols) (conj Ht Hp)) in Hsub.
  discriminate.
Qed.

(** The six ways [generate] can end: the three input errors, an exception
    in the loop over the rows, a failed write, and the normal end. *)
Lemma generate_cases (self : t) (h : host) (w : world) :
  (isfile h (csv_path self) = false /\
   generate self h w
   = (Exit 1, say ("Error: CSV file not found: " ++ csv_path self) w)) \/
  (exists e,
      isfile h (csv_path self) = true /\
      read_csv h (csv_path self) = inl e /\
      generate self h w = (Exit 1, say ("Error reading CSV: " ++ e) w)) \/
  (exists df,
      isfile h (csv_path self) = true /\
      read_csv h (csv_path self) = inr df /\
      (~ In "Topic" (columns df) \/ ~ In "Pages" (columns df)) /\
      generate self h w
      = (Exit 1,
         say ("Error: CSV must contain columns: " ++ required_columns_repr h)
             w)) \/
  (exists df e w1,
      loaded self h df /\
      for_each (iterrows df) (generate_row self h) w = (Raise e, w1) /\
      generate self h w = (Raise e, w1)) \/
  (exists df w1 e,
      loaded self h df /\
      for_each (iterrows df) (generate_row self h) w = (Ok tt, w1) /\
      output_error h (output_path self) (FPDF.close (pdf w1)) = Some e /\
      generate self h w = (Raise e, attempt (output_path self) w1)) \/
  (exists df w1,
      loaded self h df /\
      for_each (iterrows df) (generate_row self h) w = (Ok tt, w1) /\
      output_error h (output_path self) (FPDF.close (pdf w1)) = None /\
      generate self h w
      = (Ok tt, say ("PDF generated successfully: " ++ output_path self)
                    (store (output_path self)
                           (attempt (output_path self) w1)))).
Proof.
  destruct (isfile h (csv_path self)) eqn:Hf.
  2: { left. split; [reflexivity|]. now apply generate_not_found. }
  right. destruct (read_csv h (csv_path self)) as [e|df] eqn:Hr.
  { left. exists e. repeat split. now apply generate_unreadable. }
  right. destruct (issubset required_columns (columns df)) eqn:Hsub.
  2: { left. exists df. apply missing_column_cases in Hsub.
       repeat split; try assumption.
       now apply (generate_missing_columns self h df). }
  right. apply issubset_required in Hsub. destruct Hsub as [Ht Hp].
  assert (loaded self h df) as Hl by (repeat split; assumption).
  destruct (for_each (iterrows df) (generate_row self h) w)
    as [o w1] eqn:Hloop.
  pose proof (generate_after_rows self h df w w1 o Hf Hr
                (proj2 (issubset_required _) (conj Ht Hp)) Hloop) as Hgen.
  destruct o as [[]|c|e].
  - right. destruct (output_error h (output_path self) (FPDF.close (pdf w1)))
      as [e|] eqn:Hw.
    + left. exists df, w1, e. split; [exact Hl|]. now repeat split.
    + right. exists df, w1. split; [exact Hl|]. now repeat split.
  - destruct (for_each_rows_quiet self h _ _ _ _ Hloop) as (Hc & _).
    now destruct (Hc c).
  - left. exists df, e, w1. split; [exact Hl|]. now repeat split.
Qed.

End RunOutcomes.

(* ================================================================= *)
(** ** Further properties: how runs end *)

Section Endings.
Import Py Pandas Run PDFGenerator Expected.

(** X1: [generate] calls [sys.exit] only for one of its three input
    checks.  Whenever a run ends by [sys.exit], the status is 1, the input
    file was not found, could not be read or lacks a required column, one
    line was printed, no call reached the document, [output] was not
    called and the disk is as before. *)
Theorem generate_exit_is_input_error :
  forall (self : t) (h : host) (w : world) (c : Z),
    fst (generate self h w) = Exit c ->
    c = 1 /\
    (isfile h (csv_path self) = false \/
     (exists e, read_csv h (csv_path self) = inl e) \/
     (exists df, read_csv h (csv_path self) = inr df /\
                 (~ In "Topic" (columns df) \/ ~ In "Pages" (columns df)))) /\
    (exists msg, stdout (snd (generate self h w)) = (stdout w ++ [msg])%list) /\
    pdf (snd (generate self h w)) = pdf w /\
    output_calls (snd (generate self h w)) = output_calls w /\
    disk (snd (generate self h w)) = disk w.
Proof.
  intros self h w c Hexit.
  destruct (generate_cases self h w)
    as [(Hf & E)|[(e & Hf & Hr & E)|[(df & Hf & Hr & Hcols & E)|
        [(df & e & w1 & _ & _ & E)|[(df & w1 & e & _ & _ & _ & E)|
         (df & w1 & _ & _ & _ & E)]]]]];
    rewrite E in Hexit |- *; cbn [fst snd] in Hexit |- *;
    try discriminate Hexit; injection Hexit as <-.
  - split; [reflexivity|]. split; [now left|].
    split; [eexists; reflexivity|]. repeat split.
  - split; [reflexivity|]. split; [right; left; now exists e|].
    split; [eexists; reflexivity|]. repeat split.
  - split; [reflexivity|]. split; [right; right; now exists df|].
    split; [eexists; reflexivity|]. repeat split.
Qed.

Lemma generate_exit_is_input_error_witness :
  isfile (Sample.host_with Sample.math_history true) "absent.csv" = false \/
  (exists e, read_csv (Sample.host_with Sample.math_history true) "absent.csv"
             = inl e) \/
  (exists df, read_csv (Sample.host_with Sample.math_history true) "absent.csv"
              = inr df /\
              (~ In "Topic" (columns df) \/ ~ In "Pages" (columns df))).
Proof.
  exact (proj1 (proj2 (generate_exit_is_input_error
                         (Sample.generator "absent.csv" 10)
                         (Sample.host_with Sample.math_history true)
                         Sample.empty_world 1 eq_refl))).
Defined.

(** X2: a run that ends normally did everything.  The file was found and
    parsed and has both columns, every row converted (and the spacing is
    not zero unless there is no row), the loop added exactly the pages of
    the rows in order, [output] was called once, closed the document
    (adding a blank page if it had none) and raised nothing, the file at
    the output path holds the final document, and the success message is
    the only line printed. *)
Theorem generate_normal_end :
  forall (self : t) (h : host) (w : world),
    fst (generate self h w) = Ok tt ->
    (exists df tps,
        loaded self h df /\
        Forall2 (converts h) (iterrows df) tps /\
        (iterrows df <> [] -> line_spacing self <> 0) /\
        pdf (snd (generate self h w))
        = FPDF.close (pdf w ++ flat_map (page_calls self) (page_topics h tps))) /\
    output_error h (output_path self) (pdf (snd (generate self h w))) = None /\
    output_calls (snd (generate self h w))
    = (output_calls w ++ [output_path self])%list /\
    disk (snd (generate self h w))
    = (output_path self, pdf (snd (generate self h w))) :: disk w /\
    stdout (snd (generate self h w))
    = (stdout w
       ++ [("PDF generated successfully: " ++ output_path self)%string])%list.
Proof.
  intros self h w Hok.
  destruct (generate_cases self h w)
    as [(Hf & E)|[(e & Hf & Hr & E)|[(df & Hf & Hr & Hcols & E)|
        [(df & e & w1 & _ & _ & E)|[(df & w1 & e & _ & _ & _ & E)|
         (df & w1 & Hl & Hloop & Hw & E)]]]]];
    rewrite E in Hok |- *; cbn [fst snd] in Hok |- *;
    try discriminate Hok.
  destruct (for_each_rows_quiet self h _ _ _ _ Hloop) as (_ & H1 & H2 & H3).
  destruct (for_each_rows_ok self h _ _ _ Hloop) as (tps & Hrows & Hs & Hw1).
  cbn [say store attempt pdf output_calls disk stdout].
  split; [|split; [assumption|]].
  - exists df, tps. repeat split; try assumption; try apply Hl.
    now rewrite Hw1.
  - now rewrite H1, H2, H3.
Qed.

Lemma generate_normal_end_witness :
  disk (snd (generate (Sample.generator "topics.csv" 50)
                      (Sample.host_with Sample.math_history true)
                      Sample.empty_world))
  = [("out.pdf",
      pdf (snd (generate (Sample.generator "topics.csv" 50)
                         (Sample.host_with Sample.math_history true)
                         Sample.empty_world)))].
Proof.
  exact (proj1 (proj2 (proj2 (proj2
    (generate_normal_end (Sample.generator "topics.csv" 50)
                         (Sample.host_with Sample.math_history true)
                         Sample.empty_world eq_refl))))).
Defined.

(** X3: a run that does not end normally either never called [output],
    and then the disk is as before, or called it exactly once, after the
    loop over the rows had ended normally, and ends with the exception
    [output] raised.  A run that ends with an exception has printed
    nothing. *)
Theorem generate_failure_writes_nothing :
  forall (self : t) (h : host) (w : world),
    fst (generate self h w) <> Ok tt ->
    ((output_calls (snd (generate self h w)) = output_calls w /\
      disk (snd (generate self h w)) = disk w) \/
     (exists e,
         output_calls (snd (generate self h w))
         = (output_calls w ++ [output_path self])%list /\
         output_error h (output_path self) (pdf (snd (generate self h w)))
         = Some e /\
         fst (generate self h w) = Raise e)) /\
    (forall e, fst (generate self h w) = Raise e ->
               stdout (snd (generate self h w)) = stdout w).
Proof.
  intros self h w Hfail.
  destruct (generate_cases self h w)
    as [(Hf & E)|[(e & Hf & Hr & E)|[(df & Hf & Hr & Hcols & E)|
        [(df & e & w1 & _ & Hloop & E)|[(df & w1 & e & _ & Hloop & Hw & E)|
         (df & w1 & _ & _ & _ & E)]]]]];
    rewrite E in Hfail |- *; cbn [fst snd] in Hfail |- *.
  - split; [now left|discriminate].
  - split; [now left|discriminate].
  - split; [now left|discriminate].
  - destruct (for_each_rows_quiet self h _ _ _ _ Hloop) as (_ & H1 & H2 & H3).
    split; [now left|now intros _ _].
  - destruct (for_each_rows_quiet self h _ _ _ _ Hloop) as (_ & H1 & H2 & H3).
    split.
    + right. exists e. cbn [attempt output_calls pdf]. rewrite H2.
      now repeat split.
    + intros _ _. exact H1.
  - now destruct Hfail.
Qed.

Lemma generate_failure_writes_nothing_witness :
  stdout (snd (generate (Sample.generator "topics.csv" 10)
                        (Sample.host_with Sample.missing_pages true)
                        Sample.empty_world)) = [].
Proof.
  refine (proj2 (generate_failure_writes_nothing
                   (Sample.generator "topics.csv" 10)
                   (Sample.host_with Sample.missing_pages true)
                   Sample.empty_world _)
                (ValueError "cannot convert float NaN to integer") eq_refl).
  discriminate.
Defined.

End Endings.

(* ================================================================= *)
(** ** Further properties: rows and pages *)

Section RowsAndPages.
Import Py Pandas Run PDFGenerator Expected.

(** The run on a loaded file whose rows all convert. *)
Lemma generate_converted (self : t) (h : host) (df : DataFrame)
      (tps : list (value * Z)) (w : world) :
  loaded self h df ->
  Forall2 (converts h) (iterrows df) tps ->
  line_spacing self <> 0 ->
  generate self h w =
  let w1 := draw (flat_map (page_calls self) (page_topics h tps)) w in
  match output_error h (output_path self) (FPDF.close (pdf w1)) with
  | None =>
      (Ok tt, say ("PDF generated successfully: " ++ output_path self)
                  (store (output_path self) (attempt (output_path self) w1)))
  | Some e => (Raise e, attempt (output_path self) w1)
  end.
Proof.
  intros (Hf & Hr & Ht & Hp) Hrows Hs.
  rewrite (generate_loaded self h df) by assumption.
  unfold bind at 1. rewrite (for_each_rows_convert self h _ tps) by assumption.
  apply finish_cases.
Qed.

Lemma generate_converted_pdf (self : t) (h : host) (df : DataFrame)
      (tps : list (value * Z)) (w : world) :
  loaded self h df ->
  Forall2 (converts h) (iterrows df) tps ->
  line_spacing self <> 0 ->
  pdf (snd (generate self h w))
  = FPDF.close (pdf w ++ flat_map (page_calls self) (page_topics h tps)).
Proof.
  intros Hl Hrows Hs.
  rewrite (generate_converted self h df tps) by assumption. cbv zeta.
  now destruct (output_error h (output_path self)
                  (FPDF.close
                     (pdf (draw (flat_map (page_calls self) (page_topics h tps))
                                w)))).
Qed.

Lemma page_body_offsets (self : t) (topic : string) :
  FPDF.line_offsets (page_body self topic) = rule_offsets (line_spacing self).
Proof.
  unfold page_body. cbn [app FPDF.line_offsets].
  rewrite line_offsets_app, line_offsets_lines. cbn [FPDF.line_offsets].
  now rewrite app_nil_r.
Qed.


(** X4: [Pages] is whatever [int] makes of the cell the row yields.  On a
    loaded file whose rows all convert (an integer, a finite float, which
    is truncated towards zero, a boolean, or text the interpreter reads as
    an integer), with a spacing other than zero, the loop adds for each
    row [max(int(Pages), 1)] pages headed by [str(Topic)]; with at least
    one row and a document that had no page, these are the pages of the
    final document. *)
Theorem generate_converted_pages :
  forall (self : t) (h : host) (df : DataFrame) (tps : list (value * Z))
         (w : world),
    loaded self h df ->
    Forall2 (converts h) (iterrows df) tps ->
    line_spacing self <> 0 ->
    FPDF.page_count (pdf w) = 0%nat ->
    pdf (snd (generate self h w))
    = FPDF.close (pdf w ++ flat_map (page_calls self) (page_topics h tps)) /\
    Z.of_nat (FPDF.page_count (flat_map (page_calls self) (page_topics h tps)))
    = total_pages tps /\
    (tps <> [] ->
     map FPDF.header (FPDF.pages (pdf (snd (generate self h w))))
     = map Some (page_topics h tps)).
Proof.
  intros self h df tps w Hl Hrows Hs Hw.
  rewrite (generate_converted_pdf self h df tps) by assumption.
  split; [reflexivity|]. split.
  - rewrite page_count_pages, page_topics_length.
    pose proof (total_pages_nonneg tps). lia.
  - intros Hne. rewrite close_row_pages by assumption.
    rewrite pages_after by assumption. rewrite map_map.
    apply map_ext. intros topic. apply header_page_body.
Qed.

Lemma generate_converted_pages_witness :
  map FPDF.header
      (FPDF.pages
         (pdf (snd (generate (Sample.generator "topics.csv" 50)
                             (Sample.host_with Sample.fractional_pages true)
                             Sample.empty_world))))
  = [Some "Math"; Some "Math";
     Some "History"; Some "History"; Some "History"; Some "nan"].
Proof.
  refine (proj2 (proj2
    (generate_converted_pages
       (Sample.generator "topics.csv" 50)
       (Sample.host_with Sample.fractional_pages true)
       Sample.fractional_pages
       [(VStr "Math", 2); (VStr "History", 3); (VFloat FNaN, 1)]
       Sample.empty_world _ _ _ eq_refl)) _).
  - repeat split; simpl; auto.
  - repeat constructor.
  - discriminate.
  - discriminate.
Defined.

(** X5: a zero line spacing with at least one row.  When the first row
    converts, the run adds one page, draws its header and then ends with
    the [ValueError] of [range(20, 298, 0)]: no rule line, no footer, no
    further page, no call of [output] and no message. *)
Theorem generate_zero_spacing :
  forall (self : t) (h : host) (df : DataFrame) (row : Series)
         (rest : list Series) (tp : value * Z) (w : world),
    loaded self h df ->
    iterrows df = row :: rest ->
    converts h row tp ->
    line_spacing self = 0 ->
    generate self h w
    = (Raise (ValueError "range() arg 3 must not be zero"),
       draw (header_calls self (str (float_repr h) (fst tp))) w).
Proof.
  intros self h df row rest tp w (Hf & Hr & Ht & Hp) Hrows Hrow Hs.
  rewrite (generate_loaded self h df) by assumption.
  rewrite Hrows. cbn [for_each]. unfold bind.
  now rewrite (generate_row_zero self h row tp) by assumption.
Qed.

Lemma generate_zero_spacing_witness :
  generate (Sample.generator "topics.csv" 0)
           (Sample.host_with Sample.math_history true) Sample.empty_world
  = (Raise (ValueError "range() arg 3 must not be zero"),
     draw (header_calls (Sample.generator "topics.csv" 0) "Math")
          Sample.empty_world).
Proof.
  refine (generate_zero_spacing
            (Sample.generator "topics.csv" 0)
            (Sample.host_with Sample.math_history true)
            Sample.math_history
            [("Topic", VStr "Math"); ("Pages", VInt 2)]
            [[("Topic", VStr "History"); ("Pages", VInt 1)]]
            (VStr "Math", 2)
            Sample.empty_world _ eq_refl _ eq_refl).
  - repeat split; simpl; auto.
  - split; reflexivity.
Defined.

(** X6: the run stops at the first row whose [Pages] cell [int] rejects.
    With a spacing other than zero, the rows before it have their pages in
    the document, the run ends with the exception of [int], the rows
    after it are not looked at, [output] is not called and nothing is
    printed. *)
Theorem generate_stops_at_rejected_row :
  forall (self : t) (h : host) (df : DataFrame) (good : list Series)
         (bad : Series) (rest : list Series) (tps : list (value * Z))
         (cell : value) (e : exn) (w : world),
    loaded self h df ->
    iterrows df = (good ++ bad :: rest)%list ->
    Forall2 (converts h) good tps ->
    getitem bad "Topic" = inr cell ->
    int (int_text h) (get bad "Pages" (VInt 1)) = inl e ->
    line_spacing self <> 0 ->
    generate self h w
    = (Raise e, draw (flat_map (page_calls self) (page_topics h tps)) w).
Proof.
  intros self h df good bad rest tps cell e w (Hf & Hr & Ht & Hp)
         Hrows Hgood Hcell He Hs.
  rewrite (generate_loaded self h df) by assumption.
  rewrite Hrows. unfold bind at 1. rewrite for_each_app. unfold bind at 1.
  rewrite (for_each_rows_convert self h good tps) by assumption.
  cbn [for_each]. unfold bind at 1.
  assert (generate_row self h bad
            (draw (flat_map (page_calls self) (page_topics h tps)) w)
          = (Raise e, draw (flat_map (page_calls self) (page_topics h tps)) w))
    as ->; [|reflexivity].
  unfold generate_row. now rewrite Hcell, He.
Qed.

Lemma generate_stops_at_rejected_row_witness :
  generate (Sample.generator "topics.csv" 50)
           (Sample.host_with Sample.missing_pages true) Sample.empty_world
  = (Raise (ValueError "cannot convert float NaN to integer"),
     draw (flat_map (page_calls (Sample.generator "topics.csv" 50))
                    ["Math"; "Math"])
          Sample.empty_world).
Proof.
  refine (generate_stops_at_rejected_row
            (Sample.generator "topics.csv" 50)
            (Sample.host_with Sample.missing_pages true)
            Sample.missing_pages
            [[("Topic", VStr "Math"); ("Pages", VFloat (FFinite 2 0))]]
            [("Topic", VStr "History"); ("Pages", VFloat FNaN)]
            []
            [(VStr "Math", 2)]
            (VStr "History")
            (ValueError "cannot convert float NaN to integer")
            Sample.empty_world _ eq_refl _ eq_refl eq_refl _).
  - repeat split; simpl; auto.
  - repeat constructor.
  - discriminate.
Defined.

End RowsAndPages.

(* ================================================================= *)
(** ** Further properties: what reaches the document *)

Section Document.
Import Py Pandas Run PDFGenerator Expected.

Lemma range_up_In (fuel : nat) (stop step : Z) :
  0 < step ->
  forall y0 y,
    In y (range_up fuel y0 stop step) ->
    y0 <= y < stop /\ exists k, 0 <= k /\ y = y0 + k * step.
Proof.
  intros Hstep. induction fuel as [|fuel IH]; intros y0 y Hy; simpl in Hy.
  - destruct Hy.
  - destruct (Z.ltb_spec y0 stop) as [Hlt|Hge]; [|destruct Hy].
    destruct Hy as [<-|Hy].
    + split; [lia|]. exists 0. lia.
    + destruct (IH _ _ Hy) as (Hb & k & Hk & ->).
      split; [lia|]. exists (k + 1). lia.
Qed.

Lemma range3_In (start stop step : Z) (ys : list Z) (y : Z) :
  0 < step ->
  range3 start stop step = inr ys ->
  In y ys ->
  start <= y < stop /\ exists k, 0 <= k /\ y = start + k * step.
Proof.
  intros Hpos Hys Hy. unfold range3 in Hys.
  destruct (Z.eqb_spec step 0); [lia|].
  destruct (Z.ltb_spec 0 step); [|lia].
  injection Hys as <-. eapply range_up_In; eassumption.
Qed.

(** X7: a run only adds calls to the document, and every rule line among
    them runs level from 10 to 200 at an offset from 20 up to but not
    including 298, a whole number of steps below 20.  This holds for every
    input, every spacing and however the run ends. *)
Theorem generate_lines_in_region :
  forall (self : t) (h : host) (w : world),
  exists ops,
    pdf (snd (generate self h w)) = (pdf w ++ ops)%list /\
    Forall (in_rule_region (line_spacing self)) ops.
Proof.
  intros self h w.
  destruct (generate_draws (in_rule_region (line_spacing self)) self)
    with (h := h) (w := w) as (ops & Hops & Hpdf).
  - intros o Ho. destruct o; try exact I. discriminate Ho.
  - intros ys y Hys Hy. cbn [in_rule_region].
    destruct (Z_lt_le_dec 0 (line_spacing self)) as [Hpos|Hneg].
    + destruct (range3_In _ _ _ _ _ Hpos Hys Hy) as (Hb & k & Hk & Hyk).
      do 3 (split; [reflexivity|]). split; [exact Hb|].
      exists k. now split.
    + apply range3_nonpositive in Hys; [|assumption].
      subst ys. destruct Hy.
  - now exists ops.
Qed.

Lemma lookup_combine (key : string) (cols : list string) :
  forall r : list value,
    (List.length cols <= List.length r)%nat ->
    In key cols ->
    exists v, lookup (combine cols r) key = Some v.
Proof.
  induction cols as [|c cols IH]; intros r Hlen Hin; [destruct Hin|].
  destruct r as [|v r]; [simpl in Hlen; lia|].
  cbn [combine lookup]. destruct (String.eqb_spec c key) as [_|Hne].
  - now exists v.
  - destruct Hin as [Heq|Hin]; [contradiction|].
    apply IH; [simpl in Hlen; lia|assumption].
Qed.

(** The rows as [iterrows] cuts them have the cells of the records,
    converted or not. *)
Lemma values_length (df : DataFrame) (r : list value) :
  In r (values df) ->
  exists r0, In r0 (rows df) /\ List.length r = List.length r0.
Proof.
  unfold values. destruct (upcasts df); intros Hr.
  - apply in_map_iff in Hr. destruct Hr as (r0 & <- & Hr0).
    exists r0. split; [assumption|apply length_map].
  - now exists r.
Qed.

(** X8: on a frame with one cell per column, every row [iterrows] yields
    has a cell under every column label: [row[key]] does not raise
    [KeyError], and [row.get(key, default)] returns that cell and never
    the default.  So after the column check of [generate] the default 1 of
    [row.get("Pages", 1)] is never used. *)
Theorem row_has_every_column :
  forall (df : DataFrame) (row : Series) (key : string),
    well_formed df ->
    In row (iterrows df) ->
    In key (columns df) ->
    exists v, getitem row key = inr v /\ forall d, get row key d = v.
Proof.
  intros df row key Hwf Hrow Hkey.
  unfold iterrows in Hrow. apply in_map_iff in Hrow.
  destruct Hrow as (r & <- & Hr).
  unfold well_formed in Hwf. rewrite Forall_forall in Hwf.
  destruct (values_length df r Hr) as (r0 & Hr0 & Hlen).
  destruct (lookup_combine key (columns df) r) as (v & Hv);
    [rewrite Hlen, (Hwf r0 Hr0); lia|assumption|].
  exists v. unfold getitem, get. rewrite Hv. now split.
Qed.

Lemma row_has_every_column_witness :
  exists v,
    getitem [("Topic", VStr "History"); ("Pages", VFloat FNaN)] "Pages" = inr v /\
    forall d,
      get [("Topic", VStr "History"); ("Pages", VFloat FNaN)] "Pages" d = v.
Proof.
  refine (row_has_every_column
            Sample.missing_pages
            [("Topic", VStr "History"); ("Pages", VFloat FNaN)]
            "Pages" _ _ _).
  - repeat constructor.
  - simpl; auto.
  - simpl; auto.
Defined.





End Document.

(* ================================================================= *)
(** ** Further properties: [main] *)

Section Main.
Import Py Pandas Run PDFGenerator Expected.

Lemma page_count_fresh (doc : list FPDF.op) :
  FPDF.page_count (FPDF.SetAutoPageBreak false 0 :: doc) = FPDF.page_count doc.
Proof. reflexivity. Qed.

(** X10: [main] starts from a new document.  Whatever calls an earlier
    document had received, on a loaded file whose rows all convert, with a
    spacing other than zero, the document [output] closes is the one call
    of [__init__] followed by the pages of the rows; when [output] raises
    nothing, [main] ends normally and the file holds that document, with
    [sum max(int(Pages), 1)] pages, or the one blank page when there is no
    row. *)
Theorem main_writes_fresh_document :
  forall (args : cli) (h : host) (df : DataFrame) (tps : list (value * Z))
         (w : world),
    loaded (configured args) h df ->
    Forall2 (converts h) (iterrows df) tps ->
    line_spacing (configured args) <> 0 ->
    output_error h (output_path (configured args))
      (FPDF.close ([FPDF.SetAutoPageBreak false 0]
                   ++ flat_map (page_calls (configured args)) (page_topics h tps)))
    = None ->
    fst (main args h w) = Ok tt /\
    disk (snd (main args h w))
    = (output_path (configured args),
       FPDF.close ([FPDF.SetAutoPageBreak false 0]
                   ++ flat_map (page_calls (configured args))
                               (page_topics h tps)))
      :: disk w /\
    Z.of_nat (FPDF.page_count
                (FPDF.close ([FPDF.SetAutoPageBreak false 0]
                             ++ flat_map (page_calls (configured args))
                                         (page_topics h tps))))
    = Z.max (total_pages tps) 1.
Proof.
  intros args h df tps w Hl Hrows Hs Hw.
  rewrite main_run, (generate_converted _ h df tps) by assumption.
  cbv zeta. cbn [draw pdf fresh]. rewrite Hw.
  split; [reflexivity|]. split; [reflexivity|].
  rewrite page_count_close, page_count_app, page_count_pages, page_topics_length.
  pose proof (total_pages_nonneg tps). cbn [FPDF.page_count filter
    FPDF.is_add_page List.length Nat.add]. lia.
Qed.

Lemma main_writes_fresh_document_witness :
  fst (main (Sample.command (Some 50))
            (Sample.host_with Sample.math_history true)
            (draw [FPDF.AddPage; FPDF.AddPage] Sample.empty_world)) = Ok tt.
Proof.
  refine (proj1 (main_writes_fresh_document
                   (Sample.command (Some 50))
                   (Sample.host_with Sample.math_history true)
                   Sample.math_history
                   [(VStr "Math", 2); (VStr "History", 1)]
                   (draw [FPDF.AddPage; FPDF.AddPage] Sample.empty_world)
                   _ _ _ eq_refl)).
  - repeat split; simpl; auto.
  - repeat constructor.
  - discriminate.
Defined.

(** X11: the defaults of the command line.  With only [--csv] given, on a
    loaded file with at least one row whose rows all convert, the
    document is written to [output.pdf] when [output] raises nothing; the
    header of every page is set in Arial bold at size 24 and every page
    has 28 rule lines, at 20, 30, ..., 290. *)
Theorem main_defaults :
  forall (csv : string) (h : host) (df : DataFrame)
         (tps : list (value * Z)) (w : world),
    loaded (configured {| opt_csv := csv; opt_output := None;
                          opt_lines := None; opt_fontsize := None |}) h df ->
    Forall2 (converts h) (iterrows df) tps ->
    tps <> [] ->
    output_error h "output.pdf"
      ([FPDF.SetAutoPageBreak false 0]
       ++ flat_map (page_calls
                      (configured {| opt_csv := csv; opt_output := None;
                                     opt_lines := None; opt_fontsize := None |}))
                   (page_topics h tps))
    = None ->
    exists doc,
      disk (snd (main {| opt_csv := csv; opt_output := None;
                         opt_lines := None; opt_fontsize := None |} h w))
      = ("output.pdf", doc) :: disk w /\
      List.length (FPDF.pages doc) = Z.to_nat (total_pages tps) /\
      Forall (fun page =>
                In (FPDF.SetFont "Arial" "B" 24) page /\
                FPDF.line_offsets page
                = map (fun i => 20 + 10 * Z.of_nat i) (seq 0 28))
             (FPDF.pages doc).
Proof.
  intros csv h df tps w Hl Hrows Hne Hw.
  set (args := {| opt_csv := csv; opt_output := None;
                  opt_lines := None; opt_fontsize := None |}) in *.
  assert (line_spacing (configured args) <> 0) as Hs by discriminate.
  rewrite main_run, (generate_converted _ h df tps) by assumption.
  cbv zeta. change (output_path (configured args)) with "output.pdf".
  cbn [draw pdf fresh]. rewrite close_row_pages by assumption. rewrite Hw.
  exists ([FPDF.SetAutoPageBreak false 0]
          ++ flat_map (page_calls (configured args)) (page_topics h tps))%list.
  split.
  { cbn [snd say store attempt draw fresh pdf disk].
    now rewrite close_row_pages. }
  rewrite pages_after by reflexivity. split.
  - now rewrite length_map, page_topics_length.
  - apply Forall_forall. intros page Hpage. apply in_map_iff in Hpage.
    destruct Hpage as (topic & <- & _). split.
    + left. reflexivity.
    + rewrite page_body_offsets.
      change (line_spacing (configured args)) with 10.
      vm_compute. reflexivity.
Qed.

Lemma main_defaults_witness :
  exists doc,
    disk (snd (main {| opt_csv := "topics.csv"; opt_output := None;
                       opt_lines := None; opt_fontsize := None |}
                    (Sample.host_with Sample.math_history true)
                    Sample.empty_world))
    = ("output.pdf", doc) :: disk Sample.empty_world /\
    List.length (FPDF.pages doc) = 3%nat /\
    Forall (fun page =>
              In (FPDF.SetFont "Arial" "B" 24) page /\
              FPDF.line_offsets page
              = map (fun i => 20 + 10 * Z.of_nat i) (seq 0 28))
           (FPDF.pages doc).
Proof.
  refine (main_defaults "topics.csv"
            (Sample.host_with Sample.math_history true)
            Sample.math_history
            [(VStr "Math", 2); (VStr "History", 1)]
            Sample.empty_world _ _ _ eq_refl).
  - repeat split; simpl; auto.
  - repeat constructor.
  - discriminate.
Defined.

End Main.

(* ================================================================= *)
(** ** Further properties: text and numbers *)

Section TextAndNumbers.
Import Py Pandas Run PDFGenerator Expected.

Lemma texts_close (doc : list FPDF.op) :
  FPDF.texts (FPDF.close doc) = FPDF.texts doc.
Proof.
  destruct (close_tail doc) as (tail & -> & [->| ->]);
    rewrite texts_app; cbn; now rewrite app_nil_r.
Qed.

Lemma texts_pages (self : t) (topics : list string) (topic : string) :
  In topic topics ->
  In topic (FPDF.texts (flat_map (page_calls self) topics)).
Proof.
  induction topics as [|t0 topics IH]; intros Hin; [destruct Hin|].
  cbn [flat_map]. rewrite texts_app. apply in_or_app.
  destruct Hin as [->|Hin].
  - left. unfold page_calls. cbn [FPDF.texts].
    rewrite page_body_texts. now left.
  - right. now apply IH.
Qed.

(** X12: a topic whose text is not latin-1.  On a loaded file whose rows
    all convert, with a spacing other than zero, when the text of some
    topic has a character beyond U+00FF the pages are drawn but [output]
    raises [UnicodeEncodeError], whether or not the path can be opened:
    the run ends with that exception, the disk is as before and nothing
    is printed. *)
Theorem generate_text_outside_latin1 :
  forall (self : t) (h : host) (df : DataFrame) (tps : list (value * Z))
         (tp : value * Z) (w : world),
    loaded self h df ->
    Forall2 (converts h) (iterrows df) tps ->
    line_spacing self <> 0 ->
    In tp tps ->
    FPDF.latin1 (str (float_repr h) (fst tp)) = false ->
    fst (generate self h w) = Raise UnicodeEncodeError /\
    output_calls (snd (generate self h w))
    = (output_calls w ++ [output_path self])%list /\
    disk (snd (generate self h w)) = disk w /\
    stdout (snd (generate self h w)) = stdout w.
Proof.
  intros self h df tps tp w Hl Hrows Hs Htp Hlatin.
  rewrite (generate_converted self h df tps) by assumption. cbv zeta.
  cbn [draw pdf].
  assert (FPDF.encodable
            (FPDF.close
               (pdf w ++ flat_map (page_calls self) (page_topics h tps)))
          = false) as Henc.
  { unfold FPDF.encodable. rewrite texts_close, texts_app.
    destruct (forallb FPDF.latin1
                (FPDF.texts (pdf w)
                 ++ FPDF.texts (flat_map (page_calls self) (page_topics h tps))))
      eqn:E; [|reflexivity].
    rewrite forallb_forall in E.
    rewrite <- Hlatin. symmetry. apply E. apply in_or_app. right.
    apply texts_pages. unfold page_topics. apply in_flat_map.
    exists tp. split; [assumption|].
    replace (Z.to_nat (Z.max (snd tp) 1))
      with (S (Z.to_nat (Z.max (snd tp) 1) - 1)) by lia.
    now left. }
  unfold output_error. rewrite Henc. repeat split.
Qed.

Lemma generate_text_outside_latin1_witness :
  fst (generate (Sample.generator "topics.csv" 10)
                (Sample.host_with Sample.kanji_topic true)
                Sample.empty_world) = Raise UnicodeEncodeError.
Proof.
  refine (proj1 (generate_text_outside_latin1
                   (Sample.generator "topics.csv" 10)
                   (Sample.host_with Sample.kanji_topic true)
                   Sample.kanji_topic
                   [(VStr Sample.tokyo, 1)] (VStr Sample.tokyo, 1)
                   Sample.empty_world _ _ _ _ eq_refl)).
  - repeat split; simpl; auto.
  - repeat constructor.
  - discriminate.
  - now left.
Defined.

Lemma lookup_combine_map (f : value -> value) (key : string)
      (cols : list string) :
  forall r : list value,
    lookup (combine cols (map f r)) key
    = option_map f (lookup (combine cols r) key).
Proof.
  induction cols as [|c cols IH]; intros r; [reflexivity|].
  destruct r as [|v r]; [reflexivity|].
  cbn [map combine lookup]. destruct (String.eqb c key); [reflexivity|apply IH].
Qed.

Lemma float_of_int_exact (p : Z) :
  Z.abs p < 2 ^ 53 -> float_of_int p = FFinite p 0.
Proof.
  intros Hp. unfold float_of_int.
  assert (Z.log2 (Z.abs p) < 53) as Hlog.
  { destruct (Z.eq_dec (Z.abs p) 0) as [->|Hne]; [cbn; lia|].
    apply Z.log2_lt_pow2; lia. }
  destruct (Z.leb_spec (Z.log2 (Z.abs p) - 52) 0); [reflexivity|lia].
Qed.

(** X13: numbers only, some of them floats.  When every cell of the frame
    is a number and some cell is a float, [iterrows] yields the integers
    as floats.  A record with the integer [n] under [Topic] and the
    integer [p] under [Pages] (below 2^53 in size) is then drawn, with a
    spacing other than zero, as [max(p, 1)] pages whose header is the text
    of the float [n], not of the integer. *)
Theorem generate_row_upcast :
  forall (self : t) (h : host) (df : DataFrame) (r : list value) (n p : Z)
         (w : world),
    upcasts df = true ->
    In r (rows df) ->
    lookup (combine (columns df) r) "Topic" = Some (VInt n) ->
    lookup (combine (columns df) r) "Pages" = Some (VInt p) ->
    Z.abs p < 2 ^ 53 ->
    line_spacing self <> 0 ->
    In (combine (columns df) (map upcast r)) (iterrows df) /\
    generate_row self h (combine (columns df) (map upcast r)) w
    = (Ok tt,
       draw (flat_map (page_calls self)
               (repeat (str (float_repr h) (VFloat (float_of_int n)))
                       (Z.to_nat (Z.max p 1)))) w).
Proof.
  intros self h df r n p w Hup Hr Ht Hp Hsize Hs. split.
  - unfold iterrows, values. rewrite Hup.
    apply in_map. now apply in_map.
  - apply (generate_row_converts self h _ (VFloat (float_of_int n), p));
      [|assumption].
    unfold converts, getitem, get.
    rewrite !lookup_combine_map, Ht, Hp. cbn [option_map upcast fst snd].
    split; [reflexivity|].
    rewrite (float_of_int_exact p Hsize). cbn [int]. f_equal. cbn. lia.
Qed.

Lemma generate_row_upcast_witness :
  In [("Topic", VFloat (FFinite 7 0)); ("Pages", VFloat (FFinite 2 0));
      ("Weight", VFloat (FFinite 3 (-1)))]
     (iterrows Sample.weighted).
Proof.
  refine (proj1 (generate_row_upcast
                   (Sample.generator "topics.csv" 50)
                   (Sample.host_with Sample.weighted true)
                   Sample.weighted
                   [VInt 7; VInt 2; VFloat (FFinite 3 (-1))] 7 2
                   Sample.empty_world eq_refl _ eq_refl eq_refl _ _)).
  - now left.
  - reflexivity.
  - discriminate.
Defined.

End TextAndNumbers.
